(** * OpenSeaMap-AIS: the Browser Session Monitor and the Connectivity Prober

    A shallow embedding of [ais_browser_test.py] (module [Monitor]) and
    [ais_diagnostic.py] (module [Prober]), with the properties of the
    specification stated and proved over it.

    Conventions of the embedding
    - Python [int] is [Z]; lengths and counters that only grow from [0] are
      [nat]; [str] is [string] (URLs and keywords are taken to be ASCII, so
      that [str.lower] is the ASCII case fold).
    - A [dict] with a fixed set of keys is a record; a key that may be absent
      is an [option] field ([None] = absent).
    - Every call that leaves the process (browser, network, file system) is
      answered by an oracle given to the run ([Monitor.Browser],
      [Prober.Network]); the call may return a value or raise.  Text written
      to standard output and [time.sleep] are not modelled. *)

From Stdlib Require Import ZArith List String Ascii Bool Lia Arith.
From Stdlib Require Import DecimalString.
From Stdlib Require Import Permutation.
Import ListNotations.

Local Open Scope string_scope.

(** ** Python preliminaries *)

Module Py.

(** The exceptions the two scripts can meet.  [KeyboardInterrupt] derives
    from [BaseException] only; all the others derive from [Exception]. *)
Inductive exn : Type :=
| KeyboardInterrupt
| NoSuchElementException
| TimeoutException            (* selenium.common.exceptions *)
| RequestsTimeout (msg : string)   (* requests.exceptions.Timeout *)
| ConnectionError (msg : string)   (* requests.exceptions.ConnectionError *)
| GaiError (msg : string)          (* socket.gaierror *)
| JSONDecodeError (msg : string)
| OtherException (msg : string).

(** [isinstance(e, Exception)] *)
Definition is_Exception (e : exn) : bool :=
  match e with
  | KeyboardInterrupt => false
  | _ => true
  end.

(** [str(e)] *)
Definition str_exn (e : exn) : string :=
  match e with
  | KeyboardInterrupt | NoSuchElementException | TimeoutException => ""
  | RequestsTimeout m | ConnectionError m | GaiError m
  | JSONDecodeError m | OtherException m => m
  end.

(** The outcome of a call: a value or a raised exception. *)
Inductive res (A : Type) : Type :=
| Ret (a : A)
| Raise (e : exn).
Arguments Ret {A} a.
Arguments Raise {A} e.

(** [str(n)] for an integer *)
Definition str_int (n : Z) : string := NilZero.string_of_int (Z.to_int n).
Definition str_nat (n : nat) : string := str_int (Z.of_nat n).

(** [s[:n]] *)
Definition take (n : nat) (s : string) : string := String.substring 0 n s.

(** [c.lower()] and [s.lower()] on ASCII text *)
Definition lower_ascii (c : ascii) : ascii :=
  let n := nat_of_ascii c in
  if (65 <=? n)%nat && (n <=? 90)%nat then ascii_of_nat (n + 32) else c.

Fixpoint lower (s : string) : string :=
  match s with
  | EmptyString => EmptyString
  | String c s' => String (lower_ascii c) (lower s')
  end.

(** [k in s] for strings: [k] occurs in [s] as a contiguous substring. *)
Fixpoint contains (k s : string) : bool :=
  String.prefix k s
  || match s with
     | EmptyString => false
     | String _ s' => contains k s'
     end.

(** [d.get(key, default)] for a key that may be absent *)
Definition get {A : Type} (field : option A) (default : A) : A :=
  match field with
  | Some v => v
  | None => default
  end.

(** [x in [a, b, ...]] on integers *)
Definition in_ints (x : Z) (l : list Z) : bool := existsb (Z.eqb x) l.

(** Statements that may change a state of type [St] and may raise. *)
Definition M (St A : Type) : Type := St -> res A * St.

Definition ret {St A : Type} (a : A) : M St A := fun s => (Ret a, s).

Definition raise {St A : Type} (e : exn) : M St A := fun s => (Raise e, s).

Definition bind {St A B : Type} (m : M St A) (k : A -> M St B) : M St B :=
  fun s =>
    match m s with
    | (Ret a, s') => k a s'
    | (Raise e, s') => (Raise e, s')
    end.

Declare Scope py_scope.
Delimit Scope py_scope with py.
Notation "x <- m ;; k" := (bind m (fun x => k))
  (at level 61, m at next level, right associativity) : py_scope.
Notation "m ;;; k" := (bind m (fun _ => k))
  (at level 61, right associativity) : py_scope.

(** [try: body  except <clauses>]: [handler e] is the clause that matches
    [e], if there is one. *)
Definition try_except {St A : Type} (body : M St A)
    (handler : exn -> option (M St A)) : M St A :=
  fun s =>
    match body s with
    | (Ret a, s') => (Ret a, s')
    | (Raise e, s') =>
        match handler e with
        | Some h => h s'
        | None => (Raise e, s')
        end
    end.

(** [try: body  finally: cleanup]: the cleanup runs on every exit of the
    body, and an exception it raises replaces the body's outcome. *)
Definition try_finally {St A : Type} (body : M St A) (cleanup : M St unit)
    : M St A :=
  fun s =>
    let (r, s') := body s in
    match cleanup s' with
    | (Ret _, s'') => (r, s'')
    | (Raise e, s'') => (Raise e, s'')
    end.

(** [except Exception as e: h] *)
Definition except_Exception {St A : Type} (h : M St A) (e : exn)
    : option (M St A) :=
  if is_Exception e then Some h else None.

(** A bare [except: h], which also catches [KeyboardInterrupt]. *)
Definition except_all {St A : Type} (h : M St A) (e : exn)
    : option (M St A) := Some h.

(** A call whose only observable outcome is whether it raises. *)
Definition external {St : Type} (answer : option exn) : M St unit :=
  match answer with
  | None => ret tt
  | Some e => raise e
  end.

(** The result of a call answered by the oracle. *)
Definition answered {St A : Type} (r : res A) : M St A := fun s => (r, s).

End Py.

Import Py.
Local Open Scope py_scope.

(** ** The Browser Session Monitor ([ais_browser_test.py]) *)

Module Monitor.

(** *** Captured Request Records and the Analysis Summary *)

(** One element of [relevant_requests]: the four keys written when the
    request is seen, and the five that later events may add. *)
Record Request : Type := mkRequest {
  timestamp : string;
  url : string;
  method : string;
  requestId : string;
  status : option Z;
  status_text : option string;
  content_type : option string;
  failed : option bool;
  error : option string
}.

(** The dictionary built by [analyze_results]. *)
Record Analysis : Type := mkAnalysis {
  a_timestamp : string;
  ais_requests_found : nat;
  successful_requests : nat;
  failed_requests : nat;
  blocked_requests : nat;
  javascript_errors : nat;
  findings : list string;
  raw_requests : list Request;
  raw_errors : list string;
  root_cause : option string;
  screenshot : option (option string)
}.

Definition bump_failed (a : Analysis) (finding : string) : Analysis :=
  mkAnalysis (a_timestamp a) (ais_requests_found a) (successful_requests a)
    (S (failed_requests a)) (blocked_requests a) (javascript_errors a)
    (findings a ++ [finding]) (raw_requests a) (raw_errors a)
    (root_cause a) (screenshot a).

Definition bump_successful (a : Analysis) : Analysis :=
  mkAnalysis (a_timestamp a) (ais_requests_found a) (S (successful_requests a))
    (failed_requests a) (blocked_requests a) (javascript_errors a)
    (findings a) (raw_requests a) (raw_errors a)
    (root_cause a) (screenshot a).

Definition bump_blocked (a : Analysis) (finding : string) : Analysis :=
  mkAnalysis (a_timestamp a) (ais_requests_found a) (successful_requests a)
    (failed_requests a) (S (blocked_requests a)) (javascript_errors a)
    (findings a ++ [finding]) (raw_requests a) (raw_errors a)
    (root_cause a) (screenshot a).

Definition set_root_cause (a : Analysis) (rc : string) : Analysis :=
  mkAnalysis (a_timestamp a) (ais_requests_found a) (successful_requests a)
    (failed_requests a) (blocked_requests a) (javascript_errors a)
    (findings a) (raw_requests a) (raw_errors a)
    (Some rc) (screenshot a).

Definition set_screenshot (a : Analysis) (shot : option string) : Analysis :=
  mkAnalysis (a_timestamp a) (ais_requests_found a) (successful_requests a)
    (failed_requests a) (blocked_requests a) (javascript_errors a)
    (findings a) (raw_requests a) (raw_errors a)
    (root_cause a) (Some shot).

(** [str(req.get('status_text'))] inside an f-string: an absent key prints
    as [None]. *)
Definition str_opt (o : option string) : string := get o "None".

(** [bool(req.get('failed'))] *)
Definition failed_flag (req : Request) : bool := get (failed req) false.

(** The body of the loop [for req in network_requests]. *)
Definition analyze_request (a : Analysis) (req : Request) : Analysis :=
  if failed_flag req then
    bump_failed a
      ("FAILED REQUEST: " ++ url req ++ " - " ++ get (error req) "Unknown error")
  else
    match status req with
    | Some st =>
        if (200 <=? st)%Z && (st <? 300)%Z then bump_successful a
        else if in_ints st [401%Z; 403%Z] then
          bump_blocked a
            ("BLOCKED REQUEST: " ++ url req ++ " - HTTP " ++ str_int st
               ++ " " ++ str_opt (status_text req))
        else
          bump_failed a
            ("HTTP ERROR: " ++ url req ++ " - " ++ str_int st
               ++ " " ++ str_opt (status_text req))
    | None => a
    end.

Definition MSG_NOT_IMPLEMENTED : string :=
  "No AIS requests detected - layer may not be implemented or checkbox not functioning".
Definition MSG_AUTHENTICATION : string :=
  "AIS requests are being blocked (401/403) - API likely requires authentication".
Definition MSG_CONNECTIVITY : string :=
  "AIS requests are failing - check network connectivity or API endpoint changes".
Definition MSG_RENDERING : string :=
  "AIS requests successful - issue may be in data rendering/display".
Definition MSG_INDETERMINATE : string :=
  "Unable to determine - requests made but no responses captured".

(** The [if/elif] chain under "Determine root cause". *)
Definition determine_root_cause (a : Analysis) : Analysis :=
  if (ais_requests_found a =? 0)%nat then set_root_cause a MSG_NOT_IMPLEMENTED
  else if (0 <? blocked_requests a)%nat then set_root_cause a MSG_AUTHENTICATION
  else if (0 <? failed_requests a)%nat then set_root_cause a MSG_CONNECTIVITY
  else if (0 <? successful_requests a)%nat then set_root_cause a MSG_RENDERING
  else set_root_cause a MSG_INDETERMINATE.

(** [analyze_results(network_requests, js_errors)]; [now] is the reading of
    [datetime.now().isoformat()]. *)
Definition analyze_results (now : string) (network_requests : list Request)
    (js_errors : list string) : Analysis :=
  let analysis :=
    mkAnalysis now (List.length network_requests) 0 0 0 (List.length js_errors)
      [] network_requests js_errors None None in
  determine_root_cause (fold_left analyze_request network_requests analysis).

(** *** The performance log and the capture loop *)

(** One decoded entry of [driver.get_log('performance')].  A field of the
    JSON message that may be missing is an [option]; the code reads each of
    them with [.get(key, default)]. *)
Inductive log_entry : Type :=
| Undecodable
    (* json.loads raises JSONDecodeError: the entry is skipped *)
| Unreadable (e : string)
    (* another Exception while the fields are read: a warning is printed *)
| RequestWillBeSent (req_url req_method req_id : option string)
| ResponseReceived (resp_url : option string) (resp_status : option Z)
    (resp_status_text resp_mime resp_id : option string)
| LoadingFailed (fail_id fail_error_text : option string)
| OtherMethod (name : string).

(** A log entry together with the reading of [datetime.now().isoformat()]
    at the moment the loop body handles it. *)
Record LogItem : Type := mkLogItem {
  seen_at : string;
  entry : log_entry
}.

Definition REQUEST_KEYWORDS : list string :=
  ["ais"; "marine"; "traffic"; "ship"; "vessel";
   "getais"; "marinetraffic"; "aishub"; "aisstream"].

Definition RESPONSE_KEYWORDS : list string :=
  ["ais"; "marine"; "traffic"; "ship"; "vessel"].

(** [any(keyword in url.lower() for keyword in keywords)] *)
Definition any_keyword (keywords : list string) (u : string) : bool :=
  existsb (fun keyword => contains keyword (lower u)) keywords.
Arguments any_keyword : simpl never.

(** The assignments made to a record on a matching response. *)
Definition attach_response (st : Z) (st_text mime : string) (req : Request)
    : Request :=
  mkRequest (timestamp req) (url req) (method req) (requestId req)
    (Some st) (Some st_text) (Some mime) (failed req) (error req).

(** The assignments made to a record on a matching failure. *)
Definition mark_failed (error_text : string) (req : Request) : Request :=
  mkRequest (timestamp req) (url req) (method req) (requestId req)
    (status req) (status_text req) (content_type req)
    (Some true) (Some error_text).

(** [for req in relevant_requests: if req.get('requestId') == request_id: ...]:
    every record carrying the identifier is updated in place. *)
Definition update_matching (request_id : string) (f : Request -> Request)
    (relevant_requests : list Request) : list Request :=
  map (fun req => if String.eqb (requestId req) request_id then f req else req)
    relevant_requests.

(** The body of [for log in logs]. *)
Definition handle_log (relevant_requests : list Request) (log : LogItem)
    : list Request :=
  match entry log with
  | RequestWillBeSent u m rid =>
      let u := get u "" in
      if any_keyword REQUEST_KEYWORDS u then
        relevant_requests ++
          [mkRequest (seen_at log) u (get m "") (get rid "")
             None None None None None]
      else relevant_requests
  | ResponseReceived u st st_text mime rid =>
      if any_keyword RESPONSE_KEYWORDS (get u "") then
        update_matching (get rid "")
          (attach_response (get st 0%Z) (get st_text "") (get mime ""))
          relevant_requests
      else relevant_requests
  | LoadingFailed rid error_text =>
      update_matching (get rid "") (mark_failed (get error_text ""))
        relevant_requests
  | Undecodable | Unreadable _ | OtherMethod _ => relevant_requests
  end.

(** [while time.time() - start_time < duration]: the clock decides how many
    polls fit in the window, so the window is given as the answers of the
    successive calls of [driver.get_log('performance')].  A call that raises
    is not caught here and ends the capture. *)
Fixpoint capture_loop (polls : list (res (list LogItem)))
    (relevant_requests : list Request) : res (list Request) :=
  match polls with
  | [] => Ret relevant_requests
  | Ret logs :: later =>
      capture_loop later (fold_left handle_log logs relevant_requests)
  | Raise e :: _ => Raise e
  end.

Definition capture_network_logs (polls : list (res (list LogItem)))
    : res (list Request) :=
  capture_loop polls [].

(** *** The browser session *)

(** A [WebElement], named by the handle the driver gives it. *)
Definition elem : Type := nat.

(** The first component of an entry of [possible_selectors]; the loop body
    maps it to [By.ID], [By.CSS_SELECTOR] or [By.XPATH]. *)
Inductive selector_type : Type := ID | CSS | XPATH.

(** How the browser and the file system answer during one run. *)
Record Browser : Type := mkBrowser {
  chrome_start : option exn;          (* webdriver.Chrome(options=...) *)
  page_get : option exn;              (* driver.get(url) *)
  wait_for_map : option exn;          (* WebDriverWait(driver, 20).until(...) *)
  find_element : selector_type -> string -> res elem;
  is_selected_raises : elem -> option exn;
  click_raises : elem -> option exn;
  performance_polls : list (res (list LogItem));
  browser_log : res (list (string * string));   (* (level, message) *)
  save_screenshot : option exn;
  screenshot_name : string;
  analysis_time : string;
  write_report : option exn;          (* open(report_file, 'w'); json.dump *)
  quit_raises : option exn            (* driver.quit() *)
}.

(** What a run changes: [self.driver], the state of the page's checkboxes,
    and the record of the clicks and of the calls of [driver.quit()]. *)
Record Session : Type := mkSession {
  driver : bool;                      (* self.driver is not None *)
  checked : elem -> bool;
  clicks : list elem;
  quits : nat
}.

Section WithBrowser.

Variable B : Browser.

(** [element.click()]: a click toggles the element and is recorded. *)
Definition click (e : elem) : M Session unit :=
  fun s =>
    match click_raises B e with
    | Some ex => (Raise ex, s)
    | None =>
        (Ret tt,
         mkSession (driver s)
           (fun x => if Nat.eqb x e then negb (checked s e) else checked s x)
           (clicks s ++ [e]) (quits s))
    end.

(** [element.is_selected()] *)
Definition is_selected (e : elem) : M Session bool :=
  fun s =>
    match is_selected_raises B e with
    | Some ex => (Raise ex, s)
    | None => (Ret (checked s e), s)
    end.

(** [self.driver.quit()] *)
Definition quit : M Session unit :=
  fun s =>
    match quit_raises B with
    | Some ex => (Raise ex, s)
    | None => (Ret tt, mkSession (driver s) (checked s) (clicks s) (S (quits s)))
    end.

Definition setup_driver : M Session bool :=
  try_except
    (external (chrome_start B) ;;;
     (fun s => (Ret true, mkSession true (checked s) (clicks s) (quits s))))
    (except_Exception (ret false)).

Definition load_openseamap : M Session bool :=
  try_except
    (external (page_get B) ;;;
     external (wait_for_map B) ;;;
     ret true)
    (fun e =>
       match e with
       | TimeoutException => Some (ret false)
       | _ => except_Exception (ret false) e
       end).

Definition possible_selectors : list (selector_type * string) :=
  [ (ID, "checkLayerAis");
    (CSS, "input[id='checkLayerAis']");
    (XPATH, "//input[@type='checkbox' and contains(@id, 'Ais')]");
    (XPATH, "//label[contains(text(), 'Marine Traffic')]/../input");
    (XPATH, "//label[contains(text(), 'AIS')]/../input") ].

(** The loop [for selector_type, selector in possible_selectors].  A
    [WebElement] is always truthy, so [if element:] always returns it. *)
Fixpoint try_selectors (selectors : list (selector_type * string))
    : M Session (option elem) :=
  match selectors with
  | [] => ret None
  | (selector_type, selector) :: rest =>
      try_except
        (element <- answered (find_element B selector_type selector) ;;
         ret (Some element))
        (fun e =>
           match e with
           | NoSuchElementException => Some (try_selectors rest)
           | _ => None
           end)
  end.

Definition find_ais_checkbox : M Session (option elem) :=
  try_selectors possible_selectors.

Definition VIEW_MENU : string := "//img[@alt='view']/..".

(** The inner [try] of [enable_ais_layer], with its bare [except]. *)
Definition open_view_menu : M Session unit :=
  try_except
    (view_menu <- answered (find_element B XPATH VIEW_MENU) ;;
     click view_menu)
    (except_all (ret tt)).

Definition enable_ais_layer : M Session bool :=
  try_except
    (open_view_menu ;;;
     ais_checkbox <- find_ais_checkbox ;;
     match ais_checkbox with
     | None => ret false
     | Some ais_checkbox =>
         selected <- is_selected ais_checkbox ;;
         (if selected then ret tt else click ais_checkbox) ;;;
         ret true
     end)
    (except_Exception (ret false)).

(** [level in ['SEVERE', 'ERROR']] *)
Definition is_error_level (level : string) : bool :=
  String.eqb level "SEVERE" || String.eqb level "ERROR".

Definition check_javascript_errors : M Session (list string) :=
  try_except
    (logs <- answered (browser_log B) ;;
     ret (map (fun log => fst log ++ ": " ++ snd log)
            (filter (fun log => is_error_level (fst log)) logs)))
    (except_Exception (ret [])).

Definition take_screenshot : M Session (option string) :=
  try_except
    (external (save_screenshot B) ;;;
     ret (Some (screenshot_name B)))
    (except_Exception (ret None)).

(** What [run_full_diagnostic] returns: the dictionary with the single key
    ['error'], or the analysis. *)
Inductive Results : Type :=
| ErrorResult (error_message : string)
| AnalysisResult (analysis : Analysis).

Definition run_full_diagnostic : M Session Results :=
  ok <- setup_driver ;;
  if negb ok then ret (ErrorResult "Failed to initialize WebDriver")
  else
    try_finally
      (loaded <- load_openseamap ;;
       if negb loaded then ret (ErrorResult "Failed to load OpenSeaMap")
       else
         enable_ais_layer ;;;
         network_requests <- answered (capture_network_logs (performance_polls B)) ;;
         js_errors <- check_javascript_errors ;;
         screenshot <- take_screenshot ;;
         let analysis :=
           set_screenshot
             (analyze_results (analysis_time B) network_requests js_errors)
             screenshot in
         external (write_report B) ;;;
         ret (AnalysisResult analysis))
      (fun s => if driver s then quit s else ret tt s).

(** ['error' in results] *)
Definition has_error (results : Results) : bool :=
  match results with
  | ErrorResult _ => true
  | AnalysisResult _ => false
  end.

(** [results.get('failed_requests', 0)] and [results.get('blocked_requests', 0)] *)
Definition get_failed_requests (results : Results) : nat :=
  match results with
  | ErrorResult _ => 0
  | AnalysisResult a => failed_requests a
  end.

Definition get_blocked_requests (results : Results) : nat :=
  match results with
  | ErrorResult _ => 0
  | AnalysisResult a => blocked_requests a
  end.

(** The [try] statement of [main], from the call of [run_full_diagnostic]
    on; the value is the argument of the [sys.exit] that ends the process.
    ([SystemExit] is not an [Exception], so the [sys.exit] calls of the
    [try] body pass through both handlers.) *)
Definition main (s : Session) : Z :=
  match run_full_diagnostic s with
  | (Ret results, _) =>
      if has_error results then 1
      else if (0 <? get_failed_requests results)%nat
              || (0 <? get_blocked_requests results)%nat then 2
      else 0
  | (Raise KeyboardInterrupt, _) => 130
  | (Raise _, _) => 1
  end%Z.

End WithBrowser.

(** The session of a freshly built monitor: [self.driver = None]. *)
Definition new_session (page : elem -> bool) : Session :=
  mkSession false page [] 0.

End Monitor.

(** ** The Connectivity Prober ([ais_diagnostic.py]) *)

Module Prober.

(** A Probe Result, the tuple [(success, message)]. *)
Definition ProbeResult : Type := (bool * string)%type.

(** [bool(t)] for a tuple of two components: a tuple is falsy only when it
    is empty. *)
Definition tuple_truthy (t : ProbeResult) : bool := negb (Nat.eqb 2 0).

(** One issue object of the tracker's answer, with the keys the code reads. *)
Record Issue : Type := mkIssue {
  title : option string;
  number : option Z;
  state : option string
}.

(** The value of [response.json()], as far as the code looks at it: a list
    of objects, or something else (with the exception that reading it as a
    list of issue objects raises); [repr] is [str(data)]. *)
Inductive Json : Type :=
| JsonList (items : list Issue) (repr : string)
| JsonOther (repr : string) (not_a_list : exn).

Record Response : Type := mkResponse {
  status_code : Z;
  header_content_type : option string;   (* headers.get('Content-Type') *)
  content_length : nat;                  (* len(response.content) *)
  text : string;
  json : res Json                        (* response.json() *)
}.

(** A call that leaves the process.  [requests.get] is given its timeout in
    seconds; [socket.gethostbyname] takes none. *)
Inductive NetCall : Type :=
| HttpGet (url : string) (params headers : list (string * string))
    (timeout : option Z)
| GetHostByName (domain : string).


(** How the network and the file system answer during one run. *)
Record Network : Type := mkNetwork {
  http : string -> res Response;
  resolve : string -> res string;
  run_at : string;                       (* datetime.now().isoformat() *)
  report_write : option exn              (* open(report_file, 'w'); json.dump *)
}.

(** The state of a run is the sequence of the calls issued so far. *)
Definition Trace : Type := list NetCall.

Section WithNetwork.

Variable N : Network.

(** [requests.get(url, params=..., timeout=..., headers=...)] *)
Definition requests_get (url : string) (params headers : list (string * string))
    (timeout : Z) : M Trace Response :=
  fun calls =>
    (http N url, (calls ++ [HttpGet url params headers (Some timeout)])%list).

(** [socket.gethostbyname(domain)] *)
Definition gethostbyname (domain : string) : M Trace string :=
  fun calls => (resolve N domain, (calls ++ [GetHostByName domain])%list).

(** [f"Error: {str(e)[:100]}"] *)
Definition error_message (e : exn) : string := "Error: " ++ take 100 (str_exn e).

Definition http_status (r : Response) : string := "HTTP " ++ str_int (status_code r).

(** [except Exception as e: return False, f"Error: {str(e)[:100]}"] *)
Definition except_Exception_error (e : exn) : option (M Trace ProbeResult) :=
  if is_Exception e then Some (ret (false, error_message e)) else None.

Definition TILE_SERVICE : string :=
  "https://tiles.marinetraffic.com/ais_helpers/shiptilesingle.aspx".

(** [x] and [y] are the tile coordinates that the function computes from
    the latitude and the longitude in floating point. *)
Definition test_marinetraffic_tiles (x y zoom : Z) : M Trace ProbeResult :=
  let url :=
    TILE_SERVICE
      ++ "?output=png&sat=1&grouping=shiptype&tile_size=512&legends=1"
      ++ "&zoom=" ++ str_int zoom ++ "&X=" ++ str_int x ++ "&Y=" ++ str_int y in
  try_except
    (response <- requests_get url [] [("User-Agent", "OpenSeaMap-Diagnostic/1.0")] 10 ;;
     if (status_code response =? 200)%Z then
       let content_type := get (header_content_type response) "" in
       if contains "image" content_type then
         ret (true,
              "Tile service responding (HTTP " ++ str_int (status_code response)
                ++ ", " ++ str_nat (content_length response) ++ " bytes)")
       else ret (false, "Unexpected content type: " ++ content_type)
     else if (status_code response =? 403)%Z then
       ret (false, "Access denied (HTTP 403) - API likely commercialized")
     else if (status_code response =? 401)%Z then
       ret (false, "Authentication required (HTTP 401) - API key needed")
     else
       ret (false, http_status response ++ ": " ++ take 200 (text response)))
    (fun e =>
       match e with
       | RequestsTimeout _ => Some (ret (false, "Request timeout (10s)"))
       | ConnectionError m =>
           Some (ret (false, "Connection error: " ++ take 100 m))
       | _ => except_Exception_error e
       end).

Definition test_marinetraffic_api_simple : M Trace ProbeResult :=
  try_except
    (response <- requests_get "https://www.marinetraffic.com/en/data/?asset_type=vessels"
                   [] [("User-Agent", "Mozilla/5.0")] 10 ;;
     if (status_code response =? 200)%Z then
       ret (true,
            "MarineTraffic website accessible (HTTP "
              ++ str_int (status_code response) ++ ")")
     else ret (false, http_status response))
    except_Exception_error.

Definition json_repr (d : Json) : string :=
  match d with
  | JsonList _ r => r
  | JsonOther r _ => r
  end.

Definition test_aishub_api : M Trace ProbeResult :=
  try_except
    (response <- requests_get "https://data.aishub.net/ws.php"
                   [("username", "DEMO"); ("format", "1");
                    ("output", "json"); ("compress", "0")] [] 10 ;;
     if (status_code response =? 200)%Z then
       try_except
         (data <- answered (json response) ;;
          match data with
          | JsonList ((_ :: _) as items) _ =>
              ret (true,
                   "AISHub API responding with data ("
                     ++ str_nat (List.length items) ++ " entries)")
          | _ =>
              if contains "ERROR" (json_repr data) then
                ret (false, "API error: " ++ json_repr data)
              else
                ret (true,
                     "AISHub endpoint accessible (authentication likely required)")
          end)
         (fun e =>
            match e with
            | JSONDecodeError _ =>
                Some (ret (false,
                           "Invalid JSON response: " ++ take 200 (text response)))
            | _ => None
            end)
     else if (status_code response =? 401)%Z then
       ret (false, "Authentication required - valid credentials needed")
     else ret (false, http_status response))
    except_Exception_error.

Definition test_aisstream_websocket : M Trace ProbeResult :=
  try_except
    (response <- requests_get "https://aisstream.io" [] [] 10 ;;
     if (status_code response =? 200)%Z then
       ret (true, "AISstream.io website accessible (WebSocket API available)")
     else ret (false, http_status response))
    except_Exception_error.

Definition BASE_URL : string := "https://map.openseamap.org".

(** One of the three blocks of [test_openseamap_api_endpoints]: the value
    stored under the endpoint's name. *)
Definition endpoint_check (url : string) (params : list (string * string))
    (accepted : list Z) : M Trace ProbeResult :=
  try_except
    (response <- requests_get url params [] 10 ;;
     ret (in_ints (status_code response) accepted, http_status response))
    except_Exception_error.

Definition test_openseamap_api_endpoints
    : M Trace (list (string * ProbeResult)) :=
  main_page <- endpoint_check BASE_URL [] [200%Z] ;;
  api_directory <- endpoint_check (BASE_URL ++ "/api/") [] [200%Z; 403%Z] ;;
  getAIS_endpoint <-
    endpoint_check (BASE_URL ++ "/api/getAIS.php") [("bbox", "0,0,1,1")]
      [200%Z; 400%Z] ;;
  ret [("main_page", main_page); ("api_directory", api_directory);
       ("getAIS_endpoint", getAIS_endpoint)].

(** [results[key] = value] on a dictionary kept in insertion order *)
Fixpoint dict_set {V : Type} (key : string) (value : V)
    (d : list (string * V)) : list (string * V) :=
  match d with
  | [] => [(key, value)]
  | (k, v) :: rest =>
      if String.eqb k key then (k, value) :: rest
      else (k, v) :: dict_set key value rest
  end.

(** The loop [for domain in domains] of [check_dns_resolution], with the
    dictionary filled so far. *)
Fixpoint check_dns_loop (domains : list string)
    (results : list (string * ProbeResult))
    : M Trace (list (string * ProbeResult)) :=
  match domains with
  | [] => ret results
  | domain :: rest =>
      r <- try_except
             (ip <- gethostbyname domain ;;
              ret (true, "Resolves to " ++ ip))
             (fun e =>
                match e with
                | GaiError _ => Some (ret (false, "DNS resolution failed"))
                | _ => except_Exception_error e
                end) ;;
      check_dns_loop rest (dict_set domain r results)
  end.

Definition check_dns_resolution (domains : list string)
    : M Trace (list (string * ProbeResult)) :=
  check_dns_loop domains [].

(** ['ais' in t or 'marine' in t or 'traffic' in t] on the lowered title *)
Definition is_ais_issue (issue : Issue) : bool :=
  let t := lower (get (title issue) "") in
  contains "ais" t || contains "marine" t || contains "traffic" t.

(** [d[key]] for a key that may be absent: [KeyError(key)], whose [str] is
    the quoted key. *)
Definition subscript {A : Type} (field : option A) (key : string) : M Trace A :=
  match field with
  | Some v => ret v
  | None => raise (OtherException ("'" ++ key ++ "'"))
  end.

Definition analyze_github_issues : M Trace ProbeResult :=
  try_except
    (response <- requests_get "https://api.github.com/repos/OpenSeaMap/online_chart/issues"
                   [("state", "all"); ("per_page", "30")] [] 10 ;;
     if (status_code response =? 200)%Z then
       data <- answered (json response) ;;
       match data with
       | JsonOther _ e => raise e
       | JsonList issues _ =>
           match filter is_ais_issue issues with
           | (recent :: _) as ais_issues =>
               t <- subscript (title recent) "title" ;;
               n <- subscript (number recent) "number" ;;
               st <- subscript (state recent) "state" ;;
               ret (true,
                    "Found " ++ str_nat (List.length ais_issues)
                      ++ " AIS-related issues. Most recent: '" ++ t
                      ++ "' (#" ++ str_int n ++ ", " ++ st ++ ")")
           | [] =>
               ret (true,
                    "No AIS-specific issues found in recent "
                      ++ str_nat (List.length issues) ++ " issues")
           end
       end
     else ret (false, http_status response))
    except_Exception_error.

End WithNetwork.

(** The dictionary [test_results] of [main], complete. *)
Record TestResults : Type := mkTestResults {
  marinetraffic_tiles : ProbeResult;
  marinetraffic_web : ProbeResult;
  aishub_api : ProbeResult;
  aisstream : ProbeResult;
  openseamap_endpoints : list (string * ProbeResult);
  github_issues : ProbeResult
}.

Definition REC_TILES : string :=
  "MarineTraffic tile service is not accessible. This was the primary AIS data source. "
  ++ "MarineTraffic has commercialized their API (requires paid subscription).".
Definition REC_AISHUB : string :=
  "AISHub.net API is accessible and was mentioned as an alternative in Issue #63. "
  ++ "Consider migrating to AISHub (requires registration and data sharing).".
Definition REC_AISSTREAM : string :=
  "AISstream.io is accessible. This is a modern WebSocket-based AIS provider. "
  ++ "Consider this as a potential alternative data source.".
Definition REC_SERVER : string :=
  "OpenSeaMap API endpoints are not responding. This could indicate server issues.".
Definition REC_DEFAULT : string :=
  "All services appear accessible. The issue may be in the client-side JavaScript "
  ++ "or in API authentication/credentials.".

(** [if cond: recommendations.append(message)] *)
Definition append_if (cond : bool) (message : string)
    (recommendations : list string) : list string :=
  if cond then (recommendations ++ [message])%list else recommendations.

(** [any(test_results['openseamap_endpoints'].values())]: the values are
    the tuples themselves. *)
Definition any_endpoint (endpoints : list (string * ProbeResult)) : bool :=
  existsb tuple_truthy (map snd endpoints).

Definition generate_recommendations (test_results : TestResults) : list string :=
  let recommendations := [] in
  let recommendations :=
    append_if (negb (fst (marinetraffic_tiles test_results))) REC_TILES
      recommendations in
  let recommendations :=
    append_if (fst (aishub_api test_results)) REC_AISHUB recommendations in
  let recommendations :=
    append_if (fst (aisstream test_results)) REC_AISSTREAM recommendations in
  let recommendations :=
    append_if (negb (any_endpoint (openseamap_endpoints test_results)))
      REC_SERVER recommendations in
  let recommendations :=
    append_if (match recommendations with [] => true | _ => false end)
      REC_DEFAULT recommendations in
  recommendations.

(** The object given to [json.dump]. *)
Record Report : Type := mkReport {
  report_timestamp : string;
  report_test_results : list (string * ProbeResult);
  report_endpoints : list (string * ProbeResult);
  report_recommendations : list string
}.

Definition CRITICAL_DOMAINS : list string :=
  ["map.openseamap.org"; "tiles.marinetraffic.com"; "data.aishub.net"; "aisstream.io"].

(** [main()]; the value is the report it writes.  The tile of London at
    zoom 10 is (511, 340). *)
Definition main (N : Network) : M Trace Report :=
  dns_results <- check_dns_resolution N CRITICAL_DOMAINS ;;
  tiles <- test_marinetraffic_tiles N 511 340 10 ;;
  web <- test_marinetraffic_api_simple N ;;
  aishub <- test_aishub_api N ;;
  stream <- test_aisstream_websocket N ;;
  osm_results <- test_openseamap_api_endpoints N ;;
  issues <- analyze_github_issues N ;;
  let test_results := mkTestResults tiles web aishub stream osm_results issues in
  let recommendations := generate_recommendations test_results in
  external (report_write N) ;;;
  ret (mkReport (run_at N)
         [("marinetraffic_tiles", tiles); ("marinetraffic_web", web);
          ("aishub_api", aishub); ("aisstream", stream);
          ("github_issues", issues)]
         osm_results recommendations).

(** The [if __name__ == "__main__"] block: the exit status of the process.
    A run of [main] that returns ends the process with status 0. *)
Definition script (N : Network) : Z :=
  match main N [] with
  | (Ret _, _) => 0
  | (Raise KeyboardInterrupt, _) => 0
  | (Raise _, _) => 1
  end%Z.

(** *** Terminal output *)

(** The class [Colors]: ANSI escape sequences. *)
Definition ESC : string := String "027"%char "".
Definition GREEN : string := ESC ++ "[92m".
Definition RED : string := ESC ++ "[91m".
Definition YELLOW : string := ESC ++ "[93m".
Definition BLUE : string := ESC ++ "[94m".
Definition RESET : string := ESC ++ "[0m".
Definition BOLD : string := ESC ++ "[1m".

(** [c * n] for a one-character string *)
Fixpoint repeat_char (c : ascii) (n : nat) : string :=
  match n with
  | O => ""
  | S n' => String c (repeat_char c n')
  end.

(** [f"{s:>width}"]: [s] flushed right in a field of [width] columns;
    a longer [s] is left as it is. *)
Definition rjust (width : nat) (s : string) : string :=
  repeat_char " " (width - String.length s) ++ s.

(** [s.center(width)]: when the padding is odd, the extra space goes to
    the left if [width] is odd and to the right if it is even. *)
Definition center (width : nat) (s : string) : string :=
  let marg := width - String.length s in
  let left :=
    marg / 2 + (if Nat.odd marg && Nat.odd width then 1 else 0) in
  repeat_char " " left ++ s ++ repeat_char " " (marg - left).

(** The text that [print_status] gives to [print]. *)
Definition print_status (status message : string) : string :=
  let color :=
    if String.eqb status "OK" then GREEN
    else if String.eqb status "FAIL" then RED
    else YELLOW in
  color ++ rjust 6 status ++ RESET ++ " | " ++ message.

(** The texts that [print_section] gives to its three calls of [print]. *)
Definition print_section (section_title : string) : list string :=
  let newline := String "010"%char "" in
  [ newline ++ BOLD ++ BLUE ++ repeat_char "=" 70 ++ RESET;
    BOLD ++ BLUE ++ center 70 section_title ++ RESET;
    BOLD ++ BLUE ++ repeat_char "=" 70 ++ RESET ++ newline ].

End Prober.

(** ** Vocabulary of the properties *)

Module MonitorSpec.

Import Monitor.

(** The root cause as the specification words it: a function of the four
    counts, by priority. *)
Definition root_cause_of_counts (found successful failed blocked : nat)
    : string :=
  if (found =? 0)%nat then MSG_NOT_IMPLEMENTED
  else if (1 <=? blocked)%nat then MSG_AUTHENTICATION
  else if (1 <=? failed)%nat then MSG_CONNECTIVITY
  else if (1 <=? successful)%nat then MSG_RENDERING
  else MSG_INDETERMINATE.

(** The number of elements of [l] that satisfy [p]. *)
Definition count_if {A : Type} (p : A -> bool) (l : list A) : nat :=
  List.length (filter p l).

Definition b2n (b : bool) : nat := if b then 1 else 0.

(** The classes of records that the loop of [analyze_results] tells apart:
    flagged as failed ([failed_flag]); otherwise, by the status. *)
Definition is_2xx (st : Z) : bool := (200 <=? st)%Z && (st <? 300)%Z.
Definition is_blocked_status (st : Z) : bool := (st =? 401)%Z || (st =? 403)%Z.
Definition is_other_status (st : Z) : bool :=
  negb (is_2xx st) && negb (is_blocked_status st).

(** Not flagged as failed, and answered with a status that satisfies [p]. *)
Definition status_is (p : Z -> bool) (req : Request) : bool :=
  negb (failed_flag req)
  && match status req with Some st => p st | None => false end.

(** Neither flagged as failed nor answered: no [failed], no [status]. *)
Definition unanswered (req : Request) : bool :=
  negb (failed_flag req)
  && match status req with Some _ => false | None => true end.

(** A record as [handle_log] appends it, and sample records. *)
Definition fresh_request (u rid : string) : Request :=
  mkRequest "2025-12-09T10:36:19" u "GET" rid None None None None None.

Definition redirected_request : Request :=
  attach_response 302 "Found" "text/html"
    (fresh_request "https://map.openseamap.org/api/getAIS.php" "12.1").

(** What [handle_log] does to a record that is already collected. *)
Definition evolve (log : LogItem) (req : Request) : Request :=
  match entry log with
  | ResponseReceived u st st_text mime rid =>
      if any_keyword RESPONSE_KEYWORDS (get u "") then
        if String.eqb (requestId req) (get rid "") then
          attach_response (get st 0%Z) (get st_text "") (get mime "") req
        else req
      else req
  | LoadingFailed rid error_text =>
      if String.eqb (requestId req) (get rid "") then
        mark_failed (get error_text "") req
      else req
  | _ => req
  end.

(** The records that [handle_log] appends: one for a "request sent" event
    whose URL passes the keyword filter, none otherwise. *)
Definition born (log : LogItem) : list Request :=
  match entry log with
  | RequestWillBeSent u m rid =>
      if any_keyword REQUEST_KEYWORDS (get u "") then
        [mkRequest (seen_at log) (get u "") (get m "") (get rid "")
           None None None None None]
      else []
  | _ => []
  end.

Definition evolve_all (logs : list LogItem) (req : Request) : Request :=
  fold_left (fun r log => evolve log r) logs req.

(** The identifiers of the "request sent" events of [logs] whose URL passes
    the keyword filter, in the order of the events. *)
Definition sent_ids (logs : list LogItem) : list string :=
  flat_map (fun log => map requestId (born log)) logs.

(** The error text of the last "loading failed" event of [logs] that
    carries the identifier [rid], and [current] when there is none. *)
Fixpoint last_error_text (rid : string) (logs : list LogItem)
    (current : string) : string :=
  match logs with
  | [] => current
  | log :: later =>
      match entry log with
      | LoadingFailed fid error_text =>
          if String.eqb rid (get fid "") then
            last_error_text rid later (get error_text "")
          else last_error_text rid later current
      | _ => last_error_text rid later current
      end
  end.

(** All the entries of a capture window, in the order they are handled. *)
Fixpoint window (polls : list (res (list LogItem))) : list LogItem :=
  match polls with
  | [] => []
  | Ret logs :: later => (logs ++ window later)%list
  | Raise _ :: _ => []
  end.

(** Sample events. *)
Definition AIS_URL : string := "https://map.openseamap.org/api/getAIS.php?bbox=0,0,1,1".

Definition sent (t rid : string) : LogItem :=
  mkLogItem t (RequestWillBeSent (Some AIS_URL) (Some "GET") (Some rid)).

(** The same identifier on two "request sent" events, as the browser reports
    a request and its redirect. *)
Definition duplicate_sent : list LogItem :=
  [sent "10:36:20" "12.1"; sent "10:36:21" "12.1"].

(** A failure that carries an error text, and one that carries none. *)
Definition sent_then_failed : list LogItem :=
  [sent "10:36:20" "12.1";
   mkLogItem "10:36:21" (LoadingFailed (Some "12.1") (Some "net::ERR_FAILED"))].

Definition sent_then_failed_silently : list LogItem :=
  [sent "10:36:20" "12.1";
   mkLogItem "10:36:21" (LoadingFailed (Some "12.1") None)].

(** The element of the first strategy that finds one, trying the strategies
    in order; a strategy that finds nothing raises
    [NoSuchElementException]. *)
Fixpoint first_match (find : selector_type -> string -> res elem)
    (selectors : list (selector_type * string)) : res (option elem) :=
  match selectors with
  | [] => Ret None
  | (t, sel) :: rest =>
      match find t sel with
      | Ret e => Ret (Some e)
      | Raise NoSuchElementException => first_match find rest
      | Raise e => Raise e
      end
  end.

(** Sample browsers: everything answers, [find] locates the elements and
    [polls] is the performance log of the capture window. *)
Definition sample_browser (find : selector_type -> string -> res elem)
    (polls : list (res (list LogItem))) : Browser :=
  mkBrowser None None None find (fun _ => None) (fun _ => None) polls
    (Ret [("SEVERE", "Uncaught TypeError"); ("INFO", "ready")]) None
    "openseamap_ais_20251209_103619.png" "2025-12-09T10:36:19" None None.

(** A page without any AIS checkbox and without view menu. *)
Definition find_nothing (t : selector_type) (sel : string) : res elem :=
  Raise NoSuchElementException.

(** A page whose view menu is element 3 and whose AIS checkbox, element 7,
    has no identifier and is found by its label only. *)
Definition find_by_label (t : selector_type) (sel : string) : res elem :=
  match t with
  | XPATH =>
      if String.eqb sel VIEW_MENU then Ret 3
      else if String.eqb sel "//label[contains(text(), 'AIS')]/../input"
      then Ret 7
      else Raise NoSuchElementException
  | _ => Raise NoSuchElementException
  end.

(** A window with one request, answered with 403. *)
Definition blocked_polls : list (res (list LogItem)) :=
  [Ret [sent "10:36:20" "12.1"];
   Ret [mkLogItem "10:36:21"
          (ResponseReceived (Some AIS_URL) (Some 403%Z) (Some "Forbidden")
             (Some "text/html") (Some "12.1"))]].

(** A browser that cannot be started. *)
Definition no_chrome : Browser :=
  mkBrowser (Some (OtherException "chromedriver not found")) None None
    find_nothing (fun _ => None) (fun _ => None) [] (Ret []) None "" "" None None.

(** A browser in which the map container never appears. *)
Definition no_map : Browser :=
  mkBrowser None None (Some TimeoutException)
    find_nothing (fun _ => None) (fun _ => None) [] (Ret []) None "" "" None None.

(** A run interrupted from the keyboard while the page loads. *)
Definition interrupted : Browser :=
  mkBrowser None (Some KeyboardInterrupt) None
    find_nothing (fun _ => None) (fun _ => None) [] (Ret []) None "" "" None None.

(** The page does not load: [driver.get] raises an exception, or the wait
    for the map container does (a timeout among them). *)
Definition navigation_fails (B : Browser) : Prop :=
  (exists e, page_get B = Some e /\ is_Exception e = true)
  \/ (page_get B = None
      /\ exists e, wait_for_map B = Some e /\ is_Exception e = true).

(** The number of clicks on the element [e] recorded in the session [s]. *)
Definition clicks_on (e : elem) (s : Session) : nat :=
  count_occ Nat.eq_dec (clicks s) e.

(** A page on which nothing is ticked, and one on which element 7 is. *)
Definition nothing_ticked : elem -> bool := fun _ => false.
Definition ais_ticked : elem -> bool := fun x => Nat.eqb x 7.

(** A poll of the performance log that is answered. *)
Definition answered_poll (poll : res (list LogItem)) : Prop :=
  exists logs, poll = Ret logs.

(** A step that lets no [Exception] escape: it returns, or it is
    interrupted from the keyboard. *)
Definition never_raises_Exception {A : Type} (m : M Session A) : Prop :=
  forall s,
    match fst (m s) with
    | Ret _ => True
    | Raise e => e = KeyboardInterrupt
    end.

(** A step that neither replaces the driver nor quits it. *)
Definition keeps_session {A : Type} (m : M Session A) : Prop :=
  forall s, driver (snd (m s)) = driver s /\ quits (snd (m s)) = quits s.

(** A field that is present. *)
Definition present {A : Type} (field : option A) : Prop := field <> None.

(** [errors] is what is left of the console entries [logs] when the
    entries whose level is neither [SEVERE] nor [ERROR] are dropped and
    each of the others is written as "level: message": same order, same
    multiplicity. *)
Inductive severe_entries : list (string * string) -> list string -> Prop :=
| severe_nil : severe_entries [] []
| severe_keep (level message : string) (logs : list (string * string))
    (errors : list string) :
    level = "SEVERE" \/ level = "ERROR" ->
    severe_entries logs errors ->
    severe_entries ((level, message) :: logs)
      ((level ++ ": " ++ message) :: errors)
| severe_skip (level message : string) (logs : list (string * string))
    (errors : list string) :
    level <> "SEVERE" ->
    level <> "ERROR" ->
    severe_entries logs errors ->
    severe_entries ((level, message) :: logs) errors.

(** A page on which the keyboard interrupts the lookup of the view menu. *)
Definition find_interrupted_menu (t : selector_type) (sel : string) : res elem :=
  match t with
  | XPATH =>
      if String.eqb sel VIEW_MENU then Raise KeyboardInterrupt
      else find_by_label t sel
  | _ => find_by_label t sel
  end.

(** A page on which the CSS lookup breaks although the label lookup would
    find the checkbox. *)
Definition find_broken_css (t : selector_type) (sel : string) : res elem :=
  match t with
  | CSS => Raise (OtherException "invalid selector")
  | _ => find_by_label t sel
  end.

(** A window whose second poll fails. *)
Definition failing_polls : list (res (list LogItem)) :=
  [Ret [sent "10:36:20" "12.1"]; Raise (OtherException "invalid session id")].

End MonitorSpec.

Module ProberSpec.

Import Prober.

(** The fixed battery: the calls of one complete run, in order. *)
Definition BATTERY : list NetCall :=
  [ GetHostByName "map.openseamap.org";
    GetHostByName "tiles.marinetraffic.com";
    GetHostByName "data.aishub.net";
    GetHostByName "aisstream.io";
    HttpGet
      ("https://tiles.marinetraffic.com/ais_helpers/shiptilesingle.aspx"
       ++ "?output=png&sat=1&grouping=shiptype&tile_size=512&legends=1"
       ++ "&zoom=10&X=511&Y=340")
      [] [("User-Agent", "OpenSeaMap-Diagnostic/1.0")] (Some 10%Z);
    HttpGet "https://www.marinetraffic.com/en/data/?asset_type=vessels"
      [] [("User-Agent", "Mozilla/5.0")] (Some 10%Z);
    HttpGet "https://data.aishub.net/ws.php"
      [("username", "DEMO"); ("format", "1"); ("output", "json"); ("compress", "0")]
      [] (Some 10%Z);
    HttpGet "https://aisstream.io" [] [] (Some 10%Z);
    HttpGet "https://map.openseamap.org" [] [] (Some 10%Z);
    HttpGet "https://map.openseamap.org/api/" [] [] (Some 10%Z);
    HttpGet "https://map.openseamap.org/api/getAIS.php" [("bbox", "0,0,1,1")]
      [] (Some 10%Z);
    HttpGet "https://api.github.com/repos/OpenSeaMap/online_chart/issues"
      [("state", "all"); ("per_page", "30")] [] (Some 10%Z) ].


(** [m] issues the calls [calls], one after the other and each once; it
    stops early only on a keyboard interrupt or on an exception that
    [escapes] allows. *)
Definition runs {A : Type} (escapes : exn -> Prop) (m : M Trace A)
    (calls : list NetCall) : Prop :=
  forall log : Trace,
  exists (r : res A) (pre post : list NetCall),
    m log = (r, (log ++ pre)%list)
    /\ calls = (pre ++ post)%list
    /\ match r with
       | Ret _ => post = []
       | Raise e => e = KeyboardInterrupt \/ (escapes e /\ is_Exception e = true)
       end.

(** A continuation that issues no call. *)
Definition pure_step {X A : Type} (k : X -> M Trace A) : Prop :=
  forall (x : X) (log : Trace), snd (k x log) = log.

(** The five messages, in the order in which the function tests for them. *)
Definition ALL_RECS : list string :=
  [REC_TILES; REC_AISHUB; REC_AISSTREAM; REC_SERVER; REC_DEFAULT].

(** Sample results: the tile service fails, AISHub fails, AISstream and two
    of the three endpoints answer. *)
Definition observed_results : TestResults :=
  mkTestResults
    (false, "Connection error: HTTPSConnectionPool(host='tiles.marinetraffic.com', port=443)")
    (false, "HTTP 403")
    (false, "Invalid JSON response: ")
    (true, "AISstream.io website accessible (WebSocket API available)")
    [("main_page", (true, "HTTP 200")); ("api_directory", (true, "HTTP 403"));
     ("getAIS_endpoint", (false, "Error: Read timed out. (read timeout=10)"))]
    (true, "Found 2 AIS-related issues.").

(** Sample results: only the tile service answers; no endpoint does. *)
Definition endpoints_down : TestResults :=
  mkTestResults (true, "Tile service responding (HTTP 200, 512 bytes)")
    (true, "MarineTraffic website accessible (HTTP 200)")
    (false, "HTTP 500") (false, "HTTP 500")
    [("main_page", (false, "HTTP 500")); ("api_directory", (false, "HTTP 500"));
     ("getAIS_endpoint", (false, "HTTP 500"))]
    (false, "HTTP 500").

(** Sample networks: nothing is reachable; in the second, moreover, the
    report cannot be written. *)
Definition unreachable : Network :=
  mkNetwork (fun _ => Raise (ConnectionError "Max retries exceeded"))
    (fun _ => Raise (GaiError "Name or service not known"))
    "2025-12-09T10:36:19" None.

Definition read_only_disk : Network :=
  mkNetwork (fun _ => Raise (ConnectionError "Max retries exceeded"))
    (fun _ => Raise (GaiError "Name or service not known"))
    "2025-12-09T10:36:19" (Some (OtherException "[Errno 13] Permission denied")).

(** The Probe Result that [check_dns_resolution] stores for the answer of
    one lookup that is not interrupted. *)
Definition dns_outcome (answer : res string) : ProbeResult :=
  match answer with
  | Ret ip => (true, "Resolves to " ++ ip)
  | Raise (GaiError _) => (false, "DNS resolution failed")
  | Raise e => (false, error_message e)
  end.


(** A network on which one of the four names does not resolve and every
    HTTP call times out. *)
Definition one_name_missing : Network :=
  mkNetwork (fun _ => Raise (RequestsTimeout "Read timed out. (read timeout=10)"))
    (fun domain =>
       if String.eqb domain "tiles.marinetraffic.com"
       then Raise (GaiError "Name or service not known")
       else Ret "195.37.132.70")
    "2025-12-09T10:36:19" None.


(** A network on which every call is answered with status 200 and a JSON
    list of two issues, both about the AIS layer. *)
Definition two_issues : list Issue :=
  [mkIssue (Some "Marine Traffic (AIS) layer no longer working") (Some 192%Z)
     (Some "open");
   mkIssue (Some "Investigate alternative AIS layer") (Some 63%Z) (Some "open")].

Definition answers_with_list : Network :=
  mkNetwork
    (fun _ => Ret (mkResponse 200 (Some "application/json") 2 "[...]"
                     (Ret (JsonList two_issues "[...]"))))
    (fun _ => Ret "195.37.132.70")
    "2025-12-09T10:36:19" None.

End ProberSpec.

(** * Properties *)

(** ** Properties of the Monitor *)

Module MonitorFacts.

Import Monitor.
Import MonitorSpec.

(** *** The analysis *)

Lemma determine_root_cause_counts (a : Analysis) :
  let a' := determine_root_cause a in
  ais_requests_found a' = ais_requests_found a
  /\ successful_requests a' = successful_requests a
  /\ failed_requests a' = failed_requests a
  /\ blocked_requests a' = blocked_requests a
  /\ raw_requests a' = raw_requests a.
Proof.
  unfold determine_root_cause.
  destruct (ais_requests_found a =? 0)%nat; [cbn; tauto|].
  destruct (0 <? blocked_requests a)%nat; [cbn; tauto|].
  destruct (0 <? failed_requests a)%nat; [cbn; tauto|].
  destruct (0 <? successful_requests a)%nat; cbn; tauto.
Qed.

Lemma determine_root_cause_text (a : Analysis) :
  root_cause (determine_root_cause a)
  = Some (root_cause_of_counts (ais_requests_found a) (successful_requests a)
            (failed_requests a) (blocked_requests a)).
Proof.
  unfold determine_root_cause, root_cause_of_counts.
  destruct (ais_requests_found a =? 0)%nat; [reflexivity|].
  destruct (blocked_requests a) as [|b]; cbn.
  - destruct (failed_requests a) as [|f]; cbn; [|reflexivity].
    destruct (successful_requests a); reflexivity.
  - reflexivity.
Qed.

(** C1: the root cause of every analysis is the function
    [root_cause_of_counts] of its four counts: "not implemented" when no
    request was found, else "authentication" when a request was blocked,
    else "connectivity" when one failed, else "rendering" when one
    succeeded, else "indeterminate". *)
Theorem C1_root_cause_by_priority
    (now : string) (network_requests : list Request) (js_errors : list string) :
  let a := analyze_results now network_requests js_errors in
  root_cause a
  = Some (root_cause_of_counts (ais_requests_found a) (successful_requests a)
            (failed_requests a) (blocked_requests a)).
Proof.
  intros a. subst a. unfold analyze_results.
  set (a0 := fold_left analyze_request network_requests _).
  destruct (determine_root_cause_counts a0) as (Hn & Hs & Hf & Hb & _).
  rewrite Hn, Hs, Hf, Hb. apply determine_root_cause_text.
Qed.

(** The five branches on literal counts. *)
Example root_cause_none : root_cause_of_counts 0 0 0 0 = MSG_NOT_IMPLEMENTED.
Proof. reflexivity. Qed.
Example root_cause_blocked_first :
  root_cause_of_counts 5 1 2 2 = MSG_AUTHENTICATION.
Proof. reflexivity. Qed.
Example root_cause_failed : root_cause_of_counts 5 3 2 0 = MSG_CONNECTIVITY.
Proof. reflexivity. Qed.
Example root_cause_successful : root_cause_of_counts 5 3 0 0 = MSG_RENDERING.
Proof. reflexivity. Qed.
Example root_cause_pending : root_cause_of_counts 5 0 0 0 = MSG_INDETERMINATE.
Proof. reflexivity. Qed.

Lemma count_if_cons {A : Type} (p : A -> bool) (x : A) (l : list A) :
  count_if p (x :: l) = b2n (p x) + count_if p l.
Proof. unfold count_if; cbn. destruct (p x); reflexivity. Qed.

(** Every record falls in exactly one class. *)
Lemma classes_partition (req : Request) :
  b2n (failed_flag req) + b2n (status_is is_2xx req)
  + b2n (status_is is_blocked_status req) + b2n (status_is is_other_status req)
  + b2n (unanswered req) = 1.
Proof.
  unfold status_is, unanswered, is_other_status.
  destruct (failed_flag req); cbn; [reflexivity|].
  destruct (status req) as [st|]; cbn; [|reflexivity].
  destruct (is_2xx st) eqn:E2, (is_blocked_status st) eqn:Eb; try reflexivity.
  unfold is_2xx, is_blocked_status in *. lia.
Qed.

(** One turn of the loop adds the record to the counter of its class. *)
Lemma analyze_request_counts (a : Analysis) (req : Request) :
  let a' := analyze_request a req in
  ais_requests_found a' = ais_requests_found a
  /\ successful_requests a' = successful_requests a + b2n (status_is is_2xx req)
  /\ blocked_requests a'
     = blocked_requests a + b2n (status_is is_blocked_status req)
  /\ failed_requests a'
     = failed_requests a + b2n (failed_flag req)
       + b2n (status_is is_other_status req).
Proof.
  unfold analyze_request, status_is, is_other_status, is_blocked_status, is_2xx,
    in_ints.
  destruct (failed_flag req); cbn; [repeat split; lia|].
  destruct (status req) as [st|]; cbn; [|repeat split; lia].
  destruct ((200 <=? st)%Z && (st <? 300)%Z) eqn:E2; cbn.
  - destruct ((st =? 401)%Z || (st =? 403)%Z) eqn:Eb; cbn; repeat split; lia.
  - rewrite orb_false_r.
    destruct ((st =? 401)%Z || (st =? 403)%Z); cbn; repeat split; lia.
Qed.

Lemma analyze_loop_counts (reqs : list Request) :
  forall a : Analysis,
  let a' := fold_left analyze_request reqs a in
  ais_requests_found a' = ais_requests_found a
  /\ successful_requests a'
     = successful_requests a + count_if (status_is is_2xx) reqs
  /\ blocked_requests a'
     = blocked_requests a + count_if (status_is is_blocked_status) reqs
  /\ failed_requests a'
     = failed_requests a + count_if failed_flag reqs
       + count_if (status_is is_other_status) reqs.
Proof.
  induction reqs as [|req reqs IH]; intros a; cbn [fold_left].
  - unfold count_if; cbn. repeat split; lia.
  - destruct (IH (analyze_request a req)) as (Hn & Hs & Hb & Hf).
    destruct (analyze_request_counts a req) as (Hn1 & Hs1 & Hb1 & Hf1).
    rewrite !count_if_cons. repeat split; lia.
Qed.

Lemma classes_total (reqs : list Request) :
  count_if failed_flag reqs + count_if (status_is is_2xx) reqs
  + count_if (status_is is_blocked_status) reqs
  + count_if (status_is is_other_status) reqs + count_if unanswered reqs
  = List.length reqs.
Proof.
  induction reqs as [|req reqs IH]; [reflexivity|].
  rewrite !count_if_cons. pose proof (classes_partition req). cbn [List.length].
  lia.
Qed.

(** C10: in every analysis the three counters count, respectively, the
    records answered with a 2xx status, those answered with 401 or 403, and
    those flagged as failed or answered with any other status (a 3xx
    redirect among them); a record with neither a failed flag nor a status
    is in none of them, so the three counters add up to the number of
    requests found less the number of such records. *)
Theorem C10_unanswered_uncounted_other_status_failed
    (now : string) (network_requests : list Request) (js_errors : list string) :
  let a := analyze_results now network_requests js_errors in
  ais_requests_found a = List.length network_requests
  /\ successful_requests a = count_if (status_is is_2xx) network_requests
  /\ blocked_requests a = count_if (status_is is_blocked_status) network_requests
  /\ failed_requests a
     = count_if failed_flag network_requests
       + count_if (status_is is_other_status) network_requests
  /\ successful_requests a + failed_requests a + blocked_requests a
       + count_if unanswered network_requests
     = ais_requests_found a
  /\ is_other_status 302 = true.
Proof.
  intros a. subst a. unfold analyze_results.
  set (a0 := mkAnalysis _ _ _ _ _ _ _ _ _ _ _).
  destruct (determine_root_cause_counts (fold_left analyze_request network_requests a0))
    as (Hn & Hs & Hf & Hb & _).
  destruct (analyze_loop_counts network_requests a0) as (Ln & Ls & Lb & Lf).
  rewrite Hn, Hs, Hf, Hb, Ln, Ls, Lb, Lf. subst a0. cbn.
  pose proof (classes_total network_requests).
  repeat split; lia.
Qed.

(** A request that was sent and never answered leaves the three counters
    at zero although one request was found. *)
Example unanswered_request_is_uncounted :
  let a := analyze_results "t" [fresh_request "https://x/ais" "1"] [] in
  ais_requests_found a = 1
  /\ successful_requests a + failed_requests a + blocked_requests a = 0
  /\ root_cause a = Some MSG_INDETERMINATE.
Proof. cbn. repeat split. Qed.

(** A redirect counts as a failed request. *)
Example redirect_is_failed :
  let a := analyze_results "t" [redirected_request] [] in
  failed_requests a = 1 /\ successful_requests a = 0 /\ blocked_requests a = 0
  /\ findings a
     = ["HTTP ERROR: https://map.openseamap.org/api/getAIS.php - 302 Found"].
Proof. cbn. repeat split. Qed.

(** *** The capture loop *)

Lemma handle_log_split (rs : list Request) (log : LogItem) :
  handle_log rs log = (map (evolve log) rs ++ born log)%list.
Proof.
  unfold handle_log, evolve, born, update_matching.
  destruct (entry log) as [| |u m rid|u st st_text mime rid|rid txt|]; cbn.
  - now rewrite map_id, app_nil_r.
  - now rewrite map_id, app_nil_r.
  - rewrite map_id. destruct (any_keyword REQUEST_KEYWORDS (get u ""));
      [reflexivity | now rewrite app_nil_r].
  - rewrite app_nil_r.
    destruct (any_keyword RESPONSE_KEYWORDS (get u ""));
      [reflexivity | now rewrite map_id].
  - now rewrite app_nil_r.
  - now rewrite map_id, app_nil_r.
Qed.

(** The records collected from [logs], starting from [rs]: the records of
    [rs] as the events changed them, then the records the events created. *)
Lemma capture_split (logs : list LogItem) :
  forall rs : list Request,
  fold_left handle_log logs rs
  = (map (evolve_all logs) rs ++ fold_left handle_log logs [])%list.
Proof.
  induction logs as [|log logs IH]; intros rs; cbn [fold_left].
  - unfold evolve_all; cbn. now rewrite map_id, app_nil_r.
  - rewrite IH. rewrite (IH (handle_log [] log)).
    rewrite !handle_log_split. cbn [map app].
    rewrite map_app, map_map, app_assoc. reflexivity.
Qed.

Lemma evolve_keeps (log : LogItem) (r : Request) :
  requestId (evolve log r) = requestId r
  /\ url (evolve log r) = url r
  /\ timestamp (evolve log r) = timestamp r.
Proof.
  unfold evolve.
  destruct (entry log) as [| |u m rid|u st st_text mime rid|rid txt|];
    try (repeat split; reflexivity).
  - destruct (any_keyword RESPONSE_KEYWORDS (get u "")),
      (String.eqb (requestId r) (get rid "")); repeat split; reflexivity.
  - destruct (String.eqb (requestId r) (get rid "")); repeat split; reflexivity.
Qed.

Lemma evolve_all_keeps (logs : list LogItem) :
  forall r : Request,
  requestId (evolve_all logs r) = requestId r
  /\ url (evolve_all logs r) = url r
  /\ timestamp (evolve_all logs r) = timestamp r.
Proof.
  unfold evolve_all.
  induction logs as [|log logs IH]; intros r; cbn [fold_left].
  - repeat split; reflexivity.
  - destruct (IH (evolve log r)) as (Hi & Hu & Ht).
    destruct (evolve_keeps log r) as (Hi' & Hu' & Ht').
    rewrite Hi, Hu, Ht. auto.
Qed.

(** Once a record is marked as failed it stays so, and its error text is
    that of the latest failure event that names it. *)
Lemma evolve_all_failed (logs : list LogItem) :
  forall (r : Request) (e : string),
  failed r = Some true ->
  error r = Some e ->
  failed (evolve_all logs r) = Some true
  /\ error (evolve_all logs r) = Some (last_error_text (requestId r) logs e).
Proof.
  unfold evolve_all.
  induction logs as [|log logs IH]; intros r e Hf He; cbn [fold_left].
  - auto.
  - destruct (evolve_keeps log r) as (Hi & _).
    assert (exists e',
              failed (evolve log r) = Some true
              /\ error (evolve log r) = Some e'
              /\ last_error_text (requestId r) (log :: logs) e
                 = last_error_text (requestId r) logs e') as (e' & Hf' & He' & Hl).
    { unfold evolve. cbn [last_error_text].
      destruct (entry log) as [| |u m rid|u st st_text mime rid|rid txt|];
        try (exists e; solve [auto]).
      - exists e.
        destruct (any_keyword RESPONSE_KEYWORDS (get u "")),
          (String.eqb (requestId r) (get rid "")); cbn; auto.
      - destruct (String.eqb (requestId r) (get rid ""));
          [exists (get txt ""); cbn; auto | exists e; auto]. }
    rewrite Hl, <- Hi. apply IH; assumption.
Qed.

Lemma ids_of_collected (logs : list LogItem) :
  map requestId (fold_left handle_log logs []) = sent_ids logs.
Proof.
  induction logs as [|log logs IH]; [reflexivity|].
  cbn [fold_left]. rewrite capture_split, map_app, IH, map_map.
  unfold sent_ids; cbn [flat_map]. f_equal.
  rewrite handle_log_split. cbn [map app].
  apply map_ext. intros r. apply (evolve_all_keeps logs r).
Qed.

(** The capture returns whenever every poll of the window is answered. *)
Lemma capture_loop_returns (polls : list (res (list LogItem))) :
  Forall (fun poll => exists logs, poll = Ret logs) polls ->
  forall rs, exists rs', capture_loop polls rs = Ret rs'.
Proof.
  induction 1 as [|poll polls (logs & ->) _ IH]; intros rs; cbn.
  - now exists rs.
  - apply IH.
Qed.

(** The loop collects what [handle_log] makes of the window's entries. *)
Lemma capture_loop_window (polls : list (res (list LogItem))) :
  forall rs rs' : list Request,
  capture_loop polls rs = Ret rs' ->
  rs' = fold_left handle_log (window polls) rs.
Proof.
  induction polls as [|[logs|e] polls IH]; intros rs rs' H; cbn in *.
  - congruence.
  - rewrite fold_left_app. now apply IH.
  - discriminate.
Qed.

(** C6 (amended): at every step of the capture loop the identifiers of the
    collected records are, in order, the identifiers of the "request sent"
    events handled so far whose URL passes the keyword filter, one record
    for each such event; so the identifiers are unique among the records
    exactly when they are unique among those events. *)
Theorem C6_one_record_per_sent_event :
  (forall logs : list LogItem,
     let collected := fold_left handle_log logs [] in
     map requestId collected = sent_ids logs
     /\ (NoDup (map requestId collected) <-> NoDup (sent_ids logs)))
  /\ (forall (polls : list (res (list LogItem))) (reqs : list Request),
        capture_network_logs polls = Ret reqs ->
        map requestId reqs = sent_ids (window polls)
        /\ (NoDup (map requestId reqs) <-> NoDup (sent_ids (window polls)))).
Proof.
  split.
  - intros logs. cbn. rewrite ids_of_collected. split; [reflexivity | tauto].
  - intros polls reqs Hcap.
    apply capture_loop_window in Hcap. subst reqs.
    rewrite ids_of_collected. split; [reflexivity | tauto].
Qed.

Lemma C6_one_record_witness :
  exists reqs,
    capture_network_logs blocked_polls = Ret reqs
    /\ map requestId reqs = ["12.1"]
    /\ NoDup (map requestId reqs).
Proof.
  eexists. split; [reflexivity|].
  destruct (proj2 C6_one_record_per_sent_event blocked_polls _ eq_refl)
    as (Hids & Hnodup).
  split; [exact Hids|].
  apply Hnodup. repeat constructor. intros [].
Defined.

(** C6, the claim as stated fails: two "request sent" events with one
    identifier yield two records with that identifier. *)
Lemma C6_duplicate_identifier_kept :
  exists rs,
    capture_network_logs [Ret duplicate_sent] = Ret rs
    /\ map requestId rs = ["12.1"; "12.1"]
    /\ ~ NoDup (map requestId rs).
Proof.
  eexists. split; [reflexivity|]. split; [reflexivity|].
  cbn. intros H. inversion H as [|x l Hin _]; subst. apply Hin. now left.
Qed.

(** The record of a request that a later event reports as failed. *)
Lemma failed_record_in_fold
    (pre mid post : list LogItem) (t1 t2 : string)
    (u m rid fid err : option string) :
  any_keyword REQUEST_KEYWORDS (get u "") = true ->
  get fid "" = get rid "" ->
  exists r,
    In r (fold_left handle_log
            (pre ++ mkLogItem t1 (RequestWillBeSent u m rid)
               :: mid ++ mkLogItem t2 (LoadingFailed fid err) :: post) [])
    /\ requestId r = get rid ""
    /\ url r = get u ""
    /\ timestamp r = t1
    /\ failed r = Some true
    /\ error r = Some (last_error_text (get rid "") post (get err "")).
Proof.
  intros Hkw Hid.
  set (r0 := mkRequest t1 (get u "") (get m "") (get rid "")
               None None None None None).
  set (rest := (mid ++ mkLogItem t2 (LoadingFailed fid err) :: post)%list).
  exists (evolve_all rest r0).
  split.
  - rewrite fold_left_app. cbn [fold_left].
    rewrite capture_split, handle_log_split.
    unfold born; cbn [entry seen_at]. rewrite Hkw.
    apply in_or_app. left. apply in_map. apply in_or_app. right.
    fold r0. now left.
  - unfold rest, evolve_all. rewrite fold_left_app. cbn [fold_left].
    fold (evolve_all mid r0).
    destruct (evolve_all_keeps mid r0) as (Hi & Hu & Ht).
    set (r1 := evolve_all mid r0) in *.
    assert (evolve (mkLogItem t2 (LoadingFailed fid err)) r1
            = mark_failed (get err "") r1) as ->.
    { unfold evolve; cbn [entry]. rewrite Hi, Hid. cbn [requestId r0].
      now rewrite String.eqb_refl. }
    set (r2 := mark_failed (get err "") r1).
    fold (evolve_all post r2).
    destruct (evolve_all_keeps post r2) as (Hi2 & Hu2 & Ht2).
    destruct (evolve_all_failed post r2 (get err "") eq_refl eq_refl)
      as (Hf & He).
    rewrite Hi2, Hu2, Ht2, Hf, He. subst r2; cbn [mark_failed requestId url timestamp].
    rewrite Hi, Hu, Ht. subst r0; cbn. repeat split; reflexivity.
Qed.

(** C8 (amended): when the events of a capture window contain a "request
    sent" event whose URL passes the keyword filter, followed by a "loading
    failed" event with the same request identifier, the record created for
    the request ends with its failed flag set to true and, as its error,
    the error text of the last "loading failed" event that names the
    identifier; the text is copied as it comes, and is the empty string
    when that event carries none. *)
Theorem C8_failed_record_carries_event_text
    (polls : list (res (list LogItem))) (reqs : list Request)
    (pre mid post : list LogItem) (t1 t2 : string)
    (u m rid fid err : option string) :
  capture_network_logs polls = Ret reqs ->
  window polls
  = (pre ++ mkLogItem t1 (RequestWillBeSent u m rid)
       :: mid ++ mkLogItem t2 (LoadingFailed fid err) :: post)%list ->
  any_keyword REQUEST_KEYWORDS (get u "") = true ->
  get fid "" = get rid "" ->
  exists r,
    In r reqs
    /\ requestId r = get rid ""
    /\ url r = get u ""
    /\ timestamp r = t1
    /\ failed r = Some true
    /\ error r = Some (last_error_text (get rid "") post (get err "")).
Proof.
  intros Hcap Hwindow Hkw Hid.
  apply capture_loop_window in Hcap. subst reqs. rewrite Hwindow.
  now apply failed_record_in_fold.
Qed.

Lemma C8_failed_record_witness :
  any_keyword REQUEST_KEYWORDS AIS_URL = true
  /\ exists r,
       In r (fold_left handle_log sent_then_failed [])
       /\ requestId r = "12.1"
       /\ url r = AIS_URL
       /\ timestamp r = "10:36:20"
       /\ failed r = Some true
       /\ error r = Some "net::ERR_FAILED".
Proof.
  split; [vm_compute; reflexivity|].
  apply (C8_failed_record_carries_event_text [Ret sent_then_failed]
           (fold_left handle_log sent_then_failed [])
           [] [] [] "10:36:20" "10:36:21"
           (Some AIS_URL) (Some "GET") (Some "12.1") (Some "12.1")
           (Some "net::ERR_FAILED")).
  - reflexivity.
  - reflexivity.
  - vm_compute; reflexivity.
  - reflexivity.
Defined.

(** C8, the claim as stated fails: after a "loading failed" event without
    error text, the record is marked as failed and its error is the empty
    string. *)
Lemma C8_silent_failure_empty_error :
  exists reqs,
    capture_network_logs [Ret sent_then_failed_silently] = Ret reqs
    /\ (exists r, In r reqs /\ failed r = Some true /\ error r = Some "")
    /\ ~ (exists r,
            In r reqs /\ failed r = Some true
            /\ exists e, error r = Some e /\ e <> "").
Proof.
  eexists. split; [vm_compute; reflexivity|]. split.
  - eexists. split; [left; reflexivity|]. split; reflexivity.
  - intros (r & Hin & _ & e & He & Hne).
    destruct Hin as [<-|[]]. cbn in He. apply Hne. congruence.
Qed.

(** *** The session *)

Section SessionFacts.

Variable B : Browser.

Lemma try_selectors_first_match (selectors : list (selector_type * string))
    (s : Session) :
  try_selectors B selectors s = (first_match (find_element B) selectors, s).
Proof.
  induction selectors as [|[t sel] rest IH]; [reflexivity|].
  cbn [try_selectors first_match].
  unfold try_except, bind, answered, ret.
  destruct (find_element B t sel) as [e|ex]; [reflexivity|].
  destruct ex; try reflexivity. exact IH.
Qed.

Lemma find_ais_checkbox_first_match (s : Session) :
  find_ais_checkbox B s
  = (first_match (find_element B) possible_selectors, s).
Proof. apply try_selectors_first_match. Qed.

(** When every strategy before the [n]-th finds nothing and that one finds
    [e], the search returns [e]. *)
Lemma first_match_found (find : selector_type -> string -> res elem)
    (before after : list (selector_type * string))
    (t : selector_type) (sel : string) (e : elem) :
  (forall p, In p before -> find (fst p) (snd p) = Raise NoSuchElementException) ->
  find t sel = Ret e ->
  first_match find (before ++ (t, sel) :: after) = Ret (Some e).
Proof.
  intros Hbefore Hfound.
  induction before as [|[t0 sel0] before IH]; cbn [app first_match].
  - now rewrite Hfound.
  - pose proof (Hbefore (t0, sel0) (or_introl eq_refl)) as H0. cbn in H0.
    rewrite H0. apply IH. intros p Hp. apply Hbefore. now right.
Qed.

Lemma first_match_none (find : selector_type -> string -> res elem)
    (selectors : list (selector_type * string)) :
  (forall p, In p selectors ->
             find (fst p) (snd p) = Raise NoSuchElementException) ->
  first_match find selectors = Ret None.
Proof.
  intros Hnone.
  induction selectors as [|[t sel] rest IH]; [reflexivity|].
  pose proof (Hnone (t, sel) (or_introl eq_refl)) as H0. cbn in H0.
  cbn [first_match]. rewrite H0.
  apply IH. intros p Hp. apply Hnone. now right.
Qed.

(** The view-menu step always returns; it changes at most the element it
    clicks. *)
Lemma open_view_menu_returns (s : Session) :
  exists s1,
    open_view_menu B s = (Ret tt, s1)
    /\ driver s1 = driver s
    /\ quits s1 = quits s
    /\ forall e,
         (forall v, find_element B XPATH VIEW_MENU = Ret v -> v <> e) ->
         checked s1 e = checked s e
         /\ clicks_on e s1 = clicks_on e s.
Proof.
  unfold open_view_menu, try_except, bind, answered, click, except_all, ret.
  destruct (find_element B XPATH VIEW_MENU) as [v|ex].
  - destruct (click_raises B v) as [ex|].
    + exists s. auto.
    + eexists. split; [reflexivity|]. cbn.
      split; [reflexivity|]. split; [reflexivity|].
      intros e Hview. split.
      * destruct (Nat.eqb_spec e v) as [->|]; [|reflexivity].
        now destruct (Hview v eq_refl).
      * unfold clicks_on. cbn [clicks]. rewrite count_occ_app. cbn [count_occ].
        destruct (Nat.eq_dec v e) as [->|]; [|apply Nat.add_0_r].
        now destruct (Hview e eq_refl).
  - exists s. auto.
Qed.

Lemma setup_driver_started (s : Session) :
  chrome_start B = None ->
  setup_driver B s = (Ret true, mkSession true (checked s) (clicks s) (quits s)).
Proof. intros H. unfold setup_driver, try_except, bind, external. now rewrite H. Qed.

Lemma setup_driver_failed (s : Session) (e : exn) :
  chrome_start B = Some e ->
  is_Exception e = true ->
  setup_driver B s = (Ret false, s).
Proof.
  intros H He.
  unfold setup_driver, try_except, bind, external, except_Exception.
  rewrite H. cbn. now rewrite He.
Qed.

Lemma load_openseamap_loaded (s : Session) :
  page_get B = None ->
  wait_for_map B = None ->
  load_openseamap B s = (Ret true, s).
Proof.
  intros Hg Hw. unfold load_openseamap, try_except, bind, external.
  now rewrite Hg, Hw.
Qed.

Lemma check_javascript_errors_returns :
  browser_log B <> Raise KeyboardInterrupt ->
  exists js, forall s, check_javascript_errors B s = (Ret js, s).
Proof.
  intros H.
  unfold check_javascript_errors, try_except, bind, answered, except_Exception.
  destruct (browser_log B) as [logs|ex].
  - eexists; reflexivity.
  - destruct ex; try (exists []; reflexivity). congruence.
Qed.

Lemma take_screenshot_returns :
  save_screenshot B <> Some KeyboardInterrupt ->
  exists shot, forall s, take_screenshot B s = (Ret shot, s).
Proof.
  intros H.
  unfold take_screenshot, try_except, bind, external, except_Exception.
  destruct (save_screenshot B) as [ex|].
  - destruct ex; try (exists None; reflexivity). congruence.
  - eexists; reflexivity.
Qed.

(** Without a checkbox the toggle step reports failure and returns. *)
Lemma enable_ais_layer_no_checkbox (s : Session) :
  first_match (find_element B) possible_selectors = Ret None ->
  exists s1,
    enable_ais_layer B s = (Ret false, s1)
    /\ driver s1 = driver s /\ quits s1 = quits s.
Proof.
  intros Hnone.
  destruct (open_view_menu_returns s) as (s1 & Hopen & Hd & Hq & _).
  exists s1. split; [|auto].
  unfold enable_ais_layer, try_except, bind.
  rewrite Hopen, find_ais_checkbox_first_match, Hnone. reflexivity.
Qed.

End SessionFacts.

Lemma analyze_request_raw (a : Analysis) (req : Request) :
  raw_requests (analyze_request a req) = raw_requests a.
Proof.
  unfold analyze_request.
  destruct (failed_flag req); [reflexivity|].
  destruct (status req) as [st|]; [|reflexivity].
  destruct ((200 <=? st)%Z && (st <? 300)%Z); [reflexivity|].
  destruct (in_ints st [401%Z; 403%Z]); reflexivity.
Qed.

Lemma analyze_results_raw (now : string) (reqs : list Request)
    (js : list string) :
  raw_requests (analyze_results now reqs js) = reqs.
Proof.
  unfold analyze_results.
  set (a0 := mkAnalysis _ _ _ _ _ _ _ _ _ _ _).
  destruct (determine_root_cause_counts (fold_left analyze_request reqs a0))
    as (_ & _ & _ & _ & ->).
  change reqs with (raw_requests a0) at 2.
  generalize a0. clear a0.
  induction reqs as [|req reqs IH]; intros a; cbn [fold_left]; [reflexivity|].
  rewrite IH. apply analyze_request_raw.
Qed.

(** A run in which the toggle step returns [toggled] goes on to the
    capture, and, when the later steps answer, returns the analysis of the
    captured requests. *)
Lemma run_continues_after_toggle (B : Browser) (s : Session)
    (reqs : list Request) :
  chrome_start B = None ->
  page_get B = None ->
  wait_for_map B = None ->
  (forall s0, exists toggled s1,
      enable_ais_layer B s0 = (Ret toggled, s1) /\ driver s1 = driver s0) ->
  capture_network_logs (performance_polls B) = Ret reqs ->
  browser_log B <> Raise KeyboardInterrupt ->
  save_screenshot B <> Some KeyboardInterrupt ->
  write_report B = None ->
  quit_raises B = None ->
  exists js shot s',
    run_full_diagnostic B s
    = (Ret (AnalysisResult
              (set_screenshot (analyze_results (analysis_time B) reqs js) shot)),
       s').
Proof.
  intros Hstart Hget Hwait Htoggle Hcap Hlog Hshot Hreport Hquit.
  destruct (check_javascript_errors_returns B Hlog) as (js & Hjs).
  destruct (take_screenshot_returns B Hshot) as (shot & Hsh).
  exists js, shot.
  unfold run_full_diagnostic, bind.
  rewrite (setup_driver_started B s Hstart). cbn [negb].
  unfold try_finally, bind.
  rewrite (load_openseamap_loaded B _ Hget Hwait). cbn [negb].
  destruct (Htoggle (mkSession true (checked s) (clicks s) (quits s)))
    as (toggled & s1 & Hen & Hd).
  rewrite Hen. unfold answered. rewrite Hcap, Hjs, Hsh.
  unfold external. rewrite Hreport. unfold ret. rewrite Hd. cbn [driver].
  unfold quit. rewrite Hquit. eexists. reflexivity.
Qed.

(** C7 (amended): the checkbox is looked for with an ordered list of
    exactly five locator strategies (the identifier, a CSS selector, an
    XPath test on the identifier attribute, and two XPath tests on the
    label text); the search returns the element of the first strategy
    that finds one; and when no strategy finds an element the search
    returns nothing, the toggle step reports failure without raising, and
    the run goes on to the capture and returns the analysis of the captured
    requests. *)
Theorem C7_five_strategies_then_observe_only (B : Browser) (s : Session) :
  possible_selectors
  = [ (ID, "checkLayerAis");
      (CSS, "input[id='checkLayerAis']");
      (XPATH, "//input[@type='checkbox' and contains(@id, 'Ais')]");
      (XPATH, "//label[contains(text(), 'Marine Traffic')]/../input");
      (XPATH, "//label[contains(text(), 'AIS')]/../input") ]
  /\ (forall before t sel after e,
        possible_selectors = (before ++ (t, sel) :: after)%list ->
        (forall p, In p before ->
                   find_element B (fst p) (snd p) = Raise NoSuchElementException) ->
        find_element B t sel = Ret e ->
        find_ais_checkbox B s = (Ret (Some e), s))
  /\ ((forall p, In p possible_selectors ->
                 find_element B (fst p) (snd p) = Raise NoSuchElementException) ->
      find_ais_checkbox B s = (Ret None, s)
      /\ (exists s1, enable_ais_layer B s = (Ret false, s1))
      /\ forall reqs,
           chrome_start B = None ->
           page_get B = None ->
           wait_for_map B = None ->
           capture_network_logs (performance_polls B) = Ret reqs ->
           browser_log B <> Raise KeyboardInterrupt ->
           save_screenshot B <> Some KeyboardInterrupt ->
           write_report B = None ->
           quit_raises B = None ->
           exists a s',
             run_full_diagnostic B s = (Ret (AnalysisResult a), s')
             /\ raw_requests a = reqs).
Proof.
  split; [reflexivity|]. split.
  - intros before t sel after e Hsplit Hbefore Hfound.
    rewrite find_ais_checkbox_first_match, Hsplit.
    now rewrite (first_match_found _ before after t sel e Hbefore Hfound).
  - intros Hnone.
    pose proof (first_match_none (find_element B) possible_selectors Hnone)
      as Hfirst.
    split; [now rewrite find_ais_checkbox_first_match, Hfirst|].
    split.
    + destruct (enable_ais_layer_no_checkbox B s Hfirst) as (s1 & H1 & _).
      now exists s1.
    + intros reqs Hstart Hget Hwait Hcap Hlog Hshot Hreport Hquit.
      destruct (run_continues_after_toggle B s reqs Hstart Hget Hwait)
        as (js & shot & s' & Hrun); try assumption.
      * intros s0.
        destruct (enable_ais_layer_no_checkbox B s0 Hfirst) as (s1 & H1 & Hd & _).
        now exists false, s1.
      * eexists. exists s'. split; [exact Hrun|].
        cbn [set_screenshot raw_requests]. apply analyze_results_raw.
Qed.

Lemma C7_observe_only_witness :
  (forall p, In p possible_selectors ->
             find_nothing (fst p) (snd p) = Raise NoSuchElementException)
  /\ find_ais_checkbox (sample_browser find_nothing blocked_polls)
       (new_session nothing_ticked)
     = (Ret None, new_session nothing_ticked)
  /\ exists a s',
       run_full_diagnostic (sample_browser find_nothing blocked_polls)
         (new_session nothing_ticked)
       = (Ret (AnalysisResult a), s')
       /\ List.length (raw_requests a) = 1.
Proof.
  split; [reflexivity|].
  destruct (C7_five_strategies_then_observe_only
              (sample_browser find_nothing blocked_polls)
              (new_session nothing_ticked)) as (_ & _ & H).
  destruct (H (fun p _ => eq_refl)) as (Hfind & _ & Hrun).
  split; [exact Hfind|].
  destruct (Hrun _ eq_refl eq_refl eq_refl eq_refl
              ltac:(discriminate) ltac:(discriminate) eq_refl eq_refl)
    as (a & s' & Ha & Hraw).
  exists a, s'. split; [exact Ha|]. now rewrite Hraw.
Defined.

(** C7, the claim as stated fails: the list has five strategies, not four;
    the third one tests the identifier attribute, not a text. *)
Lemma C7_five_strategies_not_four :
  List.length possible_selectors = 5
  /\ List.length possible_selectors <> 4
  /\ nth_error possible_selectors 2
     = Some (XPATH, "//input[@type='checkbox' and contains(@id, 'Ais')]").
Proof. repeat split. cbn. discriminate. Qed.

(** *** Enabling the layer *)

Section EnableFacts.

Variable B : Browser.
Variable e : elem.
Hypothesis Hfound : first_match (find_element B) possible_selectors = Ret (Some e).
Hypothesis Hanswers : is_selected_raises B e = None.
Hypothesis Hview : forall v, find_element B XPATH VIEW_MENU = Ret v -> v <> e.

Lemma enable_when_selected (s : Session) :
  checked s e = true ->
  exists s',
    enable_ais_layer B s = (Ret true, s')
    /\ checked s' e = true
    /\ clicks_on e s' = clicks_on e s.
Proof.
  intros Hchecked.
  destruct (open_view_menu_returns B s) as (s1 & Hopen & _ & _ & Hkeep).
  destruct (Hkeep e Hview) as (Hc & Hn).
  exists s1. split; [|split; [congruence | exact Hn]].
  unfold enable_ais_layer, try_except, bind.
  rewrite Hopen, find_ais_checkbox_first_match, Hfound.
  unfold is_selected. rewrite Hanswers, Hc, Hchecked. reflexivity.
Qed.

Lemma enable_when_unselected (s : Session) :
  checked s e = false ->
  click_raises B e = None ->
  exists s',
    enable_ais_layer B s = (Ret true, s')
    /\ checked s' e = true
    /\ clicks_on e s' = S (clicks_on e s).
Proof.
  intros Hchecked Hclick.
  destruct (open_view_menu_returns B s) as (s1 & Hopen & _ & _ & Hkeep).
  destruct (Hkeep e Hview) as (Hc & Hn).
  eexists. split; [|split].
  - unfold enable_ais_layer, try_except, bind.
    rewrite Hopen, find_ais_checkbox_first_match, Hfound.
    unfold is_selected. rewrite Hanswers, Hc, Hchecked.
    unfold click. rewrite Hclick. reflexivity.
  - cbn. now rewrite Nat.eqb_refl, Hc, Hchecked.
  - rewrite <- Hn. unfold clicks_on. cbn [clicks].
    rewrite count_occ_app. cbn [count_occ].
    destruct (Nat.eq_dec e e); [apply Nat.add_1_r | contradiction].
Qed.

End EnableFacts.

(** C9: when the AIS checkbox is found and answers, [enable_ais_layer]
    clicks it only if it is not selected: on a selected checkbox it
    performs no click on it and returns [True]; on an unselected one it
    clicks once and leaves it selected; so a second call finds it selected,
    clicks nothing and leaves the checkbox as the first call left it. *)
Theorem C9_enable_clicks_only_when_unselected
    (B : Browser) (s : Session) (e : elem) :
  find_ais_checkbox B s = (Ret (Some e), s) ->
  is_selected_raises B e = None ->
  (forall v, find_element B XPATH VIEW_MENU = Ret v -> v <> e) ->
  (checked s e = true ->
   exists s',
     enable_ais_layer B s = (Ret true, s')
     /\ checked s' e = true
     /\ clicks_on e s' = clicks_on e s)
  /\ (checked s e = false ->
      click_raises B e = None ->
      exists s',
        enable_ais_layer B s = (Ret true, s')
        /\ checked s' e = true
        /\ clicks_on e s' = S (clicks_on e s))
  /\ (click_raises B e = None ->
      exists s1 s2,
        enable_ais_layer B s = (Ret true, s1)
        /\ enable_ais_layer B s1 = (Ret true, s2)
        /\ checked s1 e = true
        /\ checked s2 e = checked s1 e
        /\ clicks_on e s2 = clicks_on e s1).
Proof.
  intros Hfind Hanswers Hview.
  rewrite find_ais_checkbox_first_match in Hfind.
  assert (first_match (find_element B) possible_selectors = Ret (Some e))
    as Hfound by congruence.
  split; [|split].
  - apply enable_when_selected; assumption.
  - apply enable_when_unselected; assumption.
  - intros Hclick.
    assert (exists s1, enable_ais_layer B s = (Ret true, s1)
                       /\ checked s1 e = true) as (s1 & H1 & Hc1).
    { destruct (checked s e) eqn:Hc.
      - destruct (enable_when_selected B e Hfound Hanswers Hview s Hc)
          as (s1 & ? & ? & _). eauto.
      - destruct (enable_when_unselected B e Hfound Hanswers Hview s Hc Hclick)
          as (s1 & ? & ? & _). eauto. }
    destruct (enable_when_selected B e Hfound Hanswers Hview s1 Hc1)
      as (s2 & H2 & Hc2 & Hn2).
    exists s1, s2. repeat split; try assumption. congruence.
Qed.

Lemma C9_enable_witness :
  let B := sample_browser find_by_label [] in
  find_ais_checkbox B (new_session ais_ticked)
  = (Ret (Some 7), new_session ais_ticked)
  /\ (exists s',
        enable_ais_layer B (new_session ais_ticked) = (Ret true, s')
        /\ checked s' 7 = true
        /\ clicks_on 7 s' = 0)
  /\ (exists s',
        enable_ais_layer B (new_session nothing_ticked) = (Ret true, s')
        /\ checked s' 7 = true
        /\ clicks_on 7 s' = 1).
Proof.
  intros B.
  assert (forall v, find_element B XPATH VIEW_MENU = Ret v -> v <> 7) as Hview.
  { intros v Hv. vm_compute in Hv. injection Hv as <-. discriminate. }
  split; [reflexivity|]. split.
  - apply (proj1 (C9_enable_clicks_only_when_unselected B
                    (new_session ais_ticked) 7 eq_refl eq_refl Hview)).
    reflexivity.
  - apply (proj1 (proj2 (C9_enable_clicks_only_when_unselected B
                           (new_session nothing_ticked) 7 eq_refl eq_refl Hview)));
      reflexivity.
Defined.

(** *** The run and the exit status *)

Lemma bind_ret_inv {St A C : Type} (m : M St A) (k : A -> M St C)
    (s s' : St) (c : C) :
  bind m k s = (Ret c, s') ->
  exists a s1, m s = (Ret a, s1) /\ k a s1 = (Ret c, s').
Proof.
  unfold bind. destruct (m s) as [[a|ex] s1]; intros H; [eauto | discriminate].
Qed.

Lemma try_finally_ret_inv {St A : Type} (body : M St A) (cleanup : M St unit)
    (s s' : St) (a : A) :
  try_finally body cleanup s = (Ret a, s') ->
  exists s1, body s = (Ret a, s1).
Proof.
  unfold try_finally. destruct (body s) as [r s1].
  destruct (cleanup s1) as [[u|ex] s2]; intros H; inversion H; subst; eauto.
Qed.

(** An analysis returned by a run is the analysis of the requests that the
    capture collected. *)
Lemma run_returns_analysis (B : Browser) (s s' : Session) (a : Analysis) :
  run_full_diagnostic B s = (Ret (AnalysisResult a), s') ->
  exists reqs js shot,
    capture_network_logs (performance_polls B) = Ret reqs
    /\ a = set_screenshot (analyze_results (analysis_time B) reqs js) shot.
Proof.
  intros H. unfold run_full_diagnostic in H.
  apply bind_ret_inv in H as (ok & s0 & _ & H).
  destruct ok; cbn [negb] in H; [|discriminate H].
  apply try_finally_ret_inv in H as (s1 & H).
  apply bind_ret_inv in H as (loaded & s2 & _ & H).
  destruct loaded; cbn [negb] in H; [|discriminate H].
  apply bind_ret_inv in H as (toggled & s3 & _ & H).
  apply bind_ret_inv in H as (reqs & s4 & Hcap & H).
  apply bind_ret_inv in H as (js & s5 & _ & H).
  apply bind_ret_inv in H as (shot & s6 & _ & H).
  apply bind_ret_inv in H as (u & s7 & _ & H).
  unfold answered in Hcap. unfold ret in H.
  exists reqs, js, shot. split; congruence.
Qed.

Lemma load_openseamap_fails (B : Browser) (s : Session) :
  navigation_fails B ->
  load_openseamap B s = (Ret false, s).
Proof.
  unfold load_openseamap, try_except, bind, external, except_Exception.
  intros [(e & -> & He) | (-> & e & -> & He)];
    destruct e; try discriminate He; reflexivity.
Qed.

(** The exit status as [main] derives it from the outcome of
    [run_full_diagnostic]: 1 when the browser session cannot be set up or
    the page does not load (the result carries an error) and when an
    exception escapes the run; 130 when a keyboard interrupt escapes the
    run; 2 when the run returns an analysis with a failed or a blocked
    request; and 0 otherwise, in particular when the capture collected no
    request. *)
Lemma exit_codes_by_outcome (B : Browser) (s : Session) :
  (forall e, chrome_start B = Some e -> is_Exception e = true ->
             main B s = 1%Z)
  /\ (chrome_start B = None -> navigation_fails B ->
      quit_raises B <> Some KeyboardInterrupt ->
      main B s = 1%Z)
  /\ (forall msg s',
        run_full_diagnostic B s = (Ret (ErrorResult msg), s') ->
        main B s = 1%Z)
  /\ (forall e s',
        run_full_diagnostic B s = (Raise e, s') -> is_Exception e = true ->
        main B s = 1%Z)
  /\ (forall s',
        run_full_diagnostic B s = (Raise KeyboardInterrupt, s') ->
        main B s = 130%Z)
  /\ (forall a s',
        run_full_diagnostic B s = (Ret (AnalysisResult a), s') ->
        (0 < failed_requests a \/ 0 < blocked_requests a -> main B s = 2%Z)
        /\ (failed_requests a = 0 -> blocked_requests a = 0 -> main B s = 0%Z)
        /\ (capture_network_logs (performance_polls B) = Ret [] ->
            main B s = 0%Z)).
Proof.
  repeat match goal with |- _ /\ _ => split end.
  - intros e Hstart He. unfold main, run_full_diagnostic, bind.
    now rewrite (setup_driver_failed B s e Hstart He).
  - intros Hstart Hnav Hquit. unfold main, run_full_diagnostic, bind.
    rewrite (setup_driver_started B s Hstart). cbn [negb].
    unfold try_finally, bind. rewrite (load_openseamap_fails B _ Hnav).
    cbn. unfold quit. destruct (quit_raises B) as [ex|]; [|reflexivity].
    destruct ex; try reflexivity. congruence.
  - intros msg s' Hrun. unfold main. now rewrite Hrun.
  - intros e s' Hrun He. unfold main. rewrite Hrun.
    destruct e; try reflexivity. discriminate He.
  - intros s' Hrun. unfold main. now rewrite Hrun.
  - intros a s' Hrun.
    assert (forall b, (0 <? failed_requests a)%nat || (0 <? blocked_requests a)%nat = b ->
                      main B s = if b then 2%Z else 0%Z) as Hmain.
    { intros b <-. unfold main. now rewrite Hrun. }
    repeat split.
    + intros Hsome. apply (Hmain true).
      destruct Hsome as [Hf|Hb].
      * apply Nat.ltb_lt in Hf. now rewrite Hf.
      * apply Nat.ltb_lt in Hb. rewrite Hb. apply orb_true_r.
    + intros Hf Hb. apply (Hmain false). now rewrite Hf, Hb.
    + intros Hcap. apply (Hmain false).
      destruct (run_returns_analysis B s s' a Hrun) as (reqs & js & shot & Hc & ->).
      rewrite Hcap in Hc. injection Hc as <-. reflexivity.
Qed.

Lemma exit_codes_by_outcome_examples :
  main (sample_browser find_nothing blocked_polls) (new_session nothing_ticked)
  = 2%Z
  /\ main (sample_browser find_nothing []) (new_session nothing_ticked) = 0%Z
  /\ main no_chrome (new_session nothing_ticked) = 1%Z
  /\ main no_map (new_session nothing_ticked) = 1%Z
  /\ main interrupted (new_session nothing_ticked) = 130%Z.
Proof.
  repeat match goal with |- _ /\ _ => split end.
  - eapply (proj2 (proj2 (proj2 (proj2 (proj2
              (exit_codes_by_outcome (sample_browser find_nothing blocked_polls)
                 (new_session nothing_ticked))))))).
    + vm_compute. reflexivity.
    + right. cbn. lia.
  - eapply (proj2 (proj2 (proj2 (proj2 (proj2
              (exit_codes_by_outcome (sample_browser find_nothing [])
                 (new_session nothing_ticked))))))).
    + vm_compute. reflexivity.
    + reflexivity.
  - apply (proj1 (exit_codes_by_outcome no_chrome (new_session nothing_ticked))
             (OtherException "chromedriver not found")); reflexivity.
  - apply (proj1 (proj2 (exit_codes_by_outcome no_map (new_session nothing_ticked)))).
    + reflexivity.
    + right. split; [reflexivity|]. exists TimeoutException. split; reflexivity.
    + discriminate.
  - eapply (proj1 (proj2 (proj2 (proj2 (proj2
              (exit_codes_by_outcome interrupted (new_session nothing_ticked))))))).
    vm_compute. reflexivity.
Defined.

(** C2: a keyboard interrupt does not always end the run with status 130.
    The bare [except] around the view-menu step of [enable_ais_layer]
    catches it: when the keyboard interrupts the lookup of the view menu,
    the step returns, the run goes on, and the process ends with status 0
    (2 when a blocked request was captured).  An interrupt at any other
    call passes the [except Exception] handlers and gives 130, as the one
    raised while the page loads. *)
Theorem C2_interrupt_in_view_menu_exits_0_or_2 :
  find_element (sample_browser find_interrupted_menu []) XPATH VIEW_MENU
  = Raise KeyboardInterrupt
  /\ open_view_menu (sample_browser find_interrupted_menu [])
       (new_session nothing_ticked)
     = (Ret tt, new_session nothing_ticked)
  /\ main (sample_browser find_interrupted_menu []) (new_session nothing_ticked)
     = 0%Z
  /\ main (sample_browser find_interrupted_menu blocked_polls)
       (new_session nothing_ticked)
     = 2%Z
  /\ page_get interrupted = Some KeyboardInterrupt
  /\ main interrupted (new_session nothing_ticked) = 130%Z.
Proof. repeat split; vm_compute; reflexivity. Qed.

End MonitorFacts.

(** ** Properties of the Prober *)

Module ProberFacts.

Import Prober.
Import ProberSpec.

(** *** The calls of a run *)

Lemma not_Exception_is_interrupt (e : exn) :
  is_Exception e = false -> e = KeyboardInterrupt.
Proof. destruct e; intros H; (reflexivity || discriminate H). Qed.

Section RunsFacts.

Variable escapes : exn -> Prop.

Lemma runs_ret {A : Type} (a : A) : runs escapes (ret a) [].
Proof.
  intros log. exists (Ret a), [], []. rewrite app_nil_r. repeat split.
Qed.

Lemma runs_bind {A C : Type} (m : M Trace A) (k : A -> M Trace C)
    (c1 c2 : list NetCall) :
  runs escapes m c1 ->
  (forall a, runs escapes (k a) c2) ->
  runs escapes (bind m k) (c1 ++ c2).
Proof.
  intros Hm Hk log. unfold bind.
  destruct (Hm log) as (r & pre & post & -> & -> & Hr).
  destruct r as [a|e].
  - subst post. rewrite app_nil_r.
    destruct (Hk a (log ++ pre)%list) as (r2 & pre2 & post2 & -> & -> & Hr2).
    exists r2, (pre ++ pre2)%list, post2.
    rewrite !app_assoc. repeat split. exact Hr2.
  - exists (Raise e), pre, (post ++ c2)%list.
    rewrite app_assoc. repeat split. exact Hr.
Qed.

(** A probe: one call, a continuation that issues none, and handlers that
    catch every [Exception]. *)
Lemma single_call_runs {X A : Type} (prim : M Trace X) (answer : res X)
    (c : NetCall) (k : X -> M Trace A) (handler : exn -> option (M Trace A)) :
  (forall log, prim log = (answer, (log ++ [c])%list)) ->
  pure_step k ->
  (forall e, is_Exception e = true -> exists a, handler e = Some (ret a)) ->
  handler KeyboardInterrupt = None ->
  runs escapes (try_except (bind prim k) handler) [c].
Proof.
  intros Hprim Hk Hcatch Hint log.
  assert (forall e, exists r,
            match handler e with
            | Some h => h (log ++ [c])%list
            | None => (Raise e, (log ++ [c])%list)
            end = (r, (log ++ [c])%list)
            /\ match r with
               | Ret _ => True
               | Raise e' => e' = KeyboardInterrupt
               end) as Hhandled.
  { intros e. destruct (is_Exception e) eqn:He.
    - destruct (Hcatch e He) as (a & ->). exists (Ret a). split; reflexivity.
    - apply not_Exception_is_interrupt in He. subst e. rewrite Hint.
      exists (Raise KeyboardInterrupt). split; reflexivity. }
  unfold try_except, bind. rewrite Hprim.
  destruct answer as [x|e].
  - pose proof (Hk x (log ++ [c])%list) as Hpure.
    destruct (k x (log ++ [c])%list) as [[a|e] log']; cbn in Hpure; subst log'.
    + exists (Ret a), [c], []. repeat split.
    + cbv beta iota. destruct (Hhandled e) as (r & Heq & Hr).
      exists r, [c], []. split; [exact Heq|]. split; [reflexivity|].
      destruct r; [reflexivity | now left].
  - cbv beta iota. destruct (Hhandled e) as (r & Heq & Hr).
    exists r, [c], []. split; [exact Heq|]. split; [reflexivity|].
    destruct r; [reflexivity | now left].
Qed.

End RunsFacts.

Ltac pure_tac :=
  intros ? ?;
  unfold subscript, try_except, bind, answered, ret, raise;
  cbv beta iota;
  repeat (match goal with
          | |- context [match ?x with _ => _ end] =>
              lazymatch x with
              | context [match _ with _ => _ end] => fail
              | _ => destruct x
              end
          end; cbv beta iota);
  reflexivity.

Ltac catch_tac :=
  let e := fresh "e" in
  let He := fresh "He" in
  intros e He; unfold except_Exception_error;
  destruct e; try discriminate He; cbn; eexists; reflexivity.

Section ProbeFacts.

Variable N : Network.
Variable escapes : exn -> Prop.

Lemma test_marinetraffic_tiles_runs (x y zoom : Z) :
  runs escapes (test_marinetraffic_tiles N x y zoom)
    [HttpGet
       (TILE_SERVICE
          ++ "?output=png&sat=1&grouping=shiptype&tile_size=512&legends=1"
          ++ "&zoom=" ++ str_int zoom ++ "&X=" ++ str_int x
          ++ "&Y=" ++ str_int y)
       [] [("User-Agent", "OpenSeaMap-Diagnostic/1.0")] (Some 10%Z)].
Proof.
  unfold test_marinetraffic_tiles.
  eapply single_call_runs; [reflexivity | pure_tac | catch_tac | reflexivity].
Qed.

Lemma test_marinetraffic_api_simple_runs :
  runs escapes (test_marinetraffic_api_simple N)
    [HttpGet "https://www.marinetraffic.com/en/data/?asset_type=vessels"
       [] [("User-Agent", "Mozilla/5.0")] (Some 10%Z)].
Proof.
  unfold test_marinetraffic_api_simple.
  eapply single_call_runs; [reflexivity | pure_tac | catch_tac | reflexivity].
Qed.

Lemma test_aishub_api_runs :
  runs escapes (test_aishub_api N)
    [HttpGet "https://data.aishub.net/ws.php"
       [("username", "DEMO"); ("format", "1"); ("output", "json"); ("compress", "0")]
       [] (Some 10%Z)].
Proof.
  unfold test_aishub_api.
  eapply single_call_runs; [reflexivity | pure_tac | catch_tac | reflexivity].
Qed.

Lemma test_aisstream_websocket_runs :
  runs escapes (test_aisstream_websocket N)
    [HttpGet "https://aisstream.io" [] [] (Some 10%Z)].
Proof.
  unfold test_aisstream_websocket.
  eapply single_call_runs; [reflexivity | pure_tac | catch_tac | reflexivity].
Qed.

Lemma endpoint_check_runs (url : string) (params : list (string * string))
    (accepted : list Z) :
  runs escapes (endpoint_check N url params accepted)
    [HttpGet url params [] (Some 10%Z)].
Proof.
  unfold endpoint_check.
  eapply single_call_runs; [reflexivity | pure_tac | catch_tac | reflexivity].
Qed.

Lemma test_openseamap_api_endpoints_runs :
  runs escapes (test_openseamap_api_endpoints N)
    [HttpGet BASE_URL [] [] (Some 10%Z);
     HttpGet (BASE_URL ++ "/api/") [] [] (Some 10%Z);
     HttpGet (BASE_URL ++ "/api/getAIS.php") [("bbox", "0,0,1,1")] []
       (Some 10%Z)].
Proof.
  unfold test_openseamap_api_endpoints.
  apply (runs_bind escapes _ _ [_] [_; _]); [apply endpoint_check_runs|intros r1].
  apply (runs_bind escapes _ _ [_] [_]); [apply endpoint_check_runs|intros r2].
  apply (runs_bind escapes _ _ [_] []); [apply endpoint_check_runs|intros r3].
  apply runs_ret.
Qed.

Lemma check_dns_loop_runs (domains : list string) :
  forall results,
  runs escapes (check_dns_loop N domains results) (map GetHostByName domains).
Proof.
  induction domains as [|domain rest IH]; intros results; cbn [check_dns_loop map].
  - apply runs_ret.
  - apply (runs_bind escapes _ _ [_] _); [|intros r; apply IH].
    eapply single_call_runs; [reflexivity | pure_tac | | reflexivity].
    intros e He. unfold except_Exception_error.
    destruct e; try discriminate He; cbn; eexists; reflexivity.
Qed.

Lemma analyze_github_issues_runs :
  runs escapes (analyze_github_issues N)
    [HttpGet "https://api.github.com/repos/OpenSeaMap/online_chart/issues"
       [("state", "all"); ("per_page", "30")] [] (Some 10%Z)].
Proof.
  unfold analyze_github_issues.
  eapply single_call_runs; [reflexivity | pure_tac | catch_tac | reflexivity].
Qed.

End ProbeFacts.

(** The whole run: the battery, then the report; only the writing of the
    report can let an [Exception] escape. *)
Lemma main_runs (N : Network) :
  runs (fun e => report_write N = Some e) (main N) BATTERY.
Proof.
  assert (exists calls,
             runs (fun e => report_write N = Some e) (main N) calls
             /\ calls = BATTERY) as (calls & H & <-); [|exact H].
  eexists. split.
  - unfold main, check_dns_resolution.
    eapply runs_bind; [apply check_dns_loop_runs | intros dns_results].
    eapply runs_bind; [apply test_marinetraffic_tiles_runs | intros tiles].
    eapply runs_bind; [apply test_marinetraffic_api_simple_runs | intros web].
    eapply runs_bind; [apply test_aishub_api_runs | intros aishub].
    eapply runs_bind; [apply test_aisstream_websocket_runs | intros stream].
    eapply runs_bind; [apply test_openseamap_api_endpoints_runs | intros osm].
    eapply runs_bind; [apply analyze_github_issues_runs | intros issues].
    cbv zeta.
    instantiate (1 := []).
    intros log. unfold bind, external.
    destruct (report_write N) as [e|] eqn:Hwrite.
    + exists (Raise e), [], []. rewrite app_nil_r. repeat split.
      destruct (is_Exception e) eqn:He; [now right|].
      left. now apply not_Exception_is_interrupt.
    + eexists (Ret _), [], []. rewrite app_nil_r. repeat split.
  - vm_compute. reflexivity.
Qed.






(** *** The recommendations *)

Ltac rec_neq :=
  match goal with
  | H : ?a = ?b |- _ =>
      apply String.eqb_eq in H; vm_compute in H; discriminate H
  end.

Ltac rec_solve :=
  cbn [In];
  intuition (try discriminate; try rec_neq;
             try (match goal with
                  | H : [_] = [_] |- _ => injection H as H
                  end; rec_neq)).

(** Whatever the endpoints answered, [any] sees one truthy tuple for each
    of them. *)
Lemma any_endpoint_nonempty (endpoints : list (string * ProbeResult)) :
  any_endpoint endpoints = match endpoints with [] => false | _ => true end.
Proof. destruct endpoints; reflexivity. Qed.

(** C4 (amended): the recommendations are a function of the Probe Results
    in which each condition is tested on its own and the messages
    accumulate in a fixed order: the "commercialized API" message is
    present exactly when the tile probe failed, the "consider migrating"
    message exactly when the AISHub probe succeeded, the AISstream message
    exactly when the AISstream probe succeeded; these messages are not
    exclusive of one another.  The default "check client-side" message is
    present exactly when none of the other four messages is, and it is
    then the only one. *)
Theorem C4_recommendations_accumulate (t : TestResults) :
  let recs := generate_recommendations t in
  (In REC_TILES recs <-> fst (marinetraffic_tiles t) = false)
  /\ (In REC_AISHUB recs <-> fst (aishub_api t) = true)
  /\ (In REC_AISSTREAM recs <-> fst (aisstream t) = true)
  /\ (In REC_DEFAULT recs <->
      ~ In REC_TILES recs /\ ~ In REC_AISHUB recs
      /\ ~ In REC_AISSTREAM recs /\ ~ In REC_SERVER recs)
  /\ (In REC_DEFAULT recs <-> recs = [REC_DEFAULT])
  /\ recs = filter (fun m => existsb (String.eqb m) recs) ALL_RECS.
Proof.
  unfold generate_recommendations, append_if.
  destruct (fst (marinetraffic_tiles t)), (fst (aishub_api t)),
    (fst (aisstream t)), (any_endpoint (openseamap_endpoints t));
    cbn [negb app]; cbv zeta;
    (split; [rec_solve|]); (split; [rec_solve|]); (split; [rec_solve|]);
    (split; [rec_solve|]); (split; [rec_solve|]);
    vm_compute; reflexivity.
Qed.

(** C4, the claim as stated fails: with the tile service down and
    AISstream reachable, two messages are selected together. *)
Lemma C4_two_messages_together :
  generate_recommendations observed_results = [REC_TILES; REC_AISSTREAM]
  /\ In REC_TILES (generate_recommendations observed_results)
  /\ In REC_AISSTREAM (generate_recommendations observed_results)
  /\ List.length (generate_recommendations observed_results) <> 1.
Proof.
  split; [reflexivity|]. split; [now left|]. split; [right; now left|].
  cbn. discriminate.
Qed.

(** With every endpoint down the "server issue" message is not selected:
    the test looks at the tuples, not at their success flags. *)
Example endpoints_down_not_reported :
  generate_recommendations endpoints_down = [REC_DEFAULT].
Proof. reflexivity. Qed.

(** *** The exit status *)

(** C3 (amended): the Prober ends with status 0 or 1; no outcome of any
    probe changes the status, which is 0 whenever the report is written
    and also when the run is interrupted from the keyboard; the status is
    1 exactly when an exception escapes the main routine, which happens
    only when the writing of the report raises it. *)
Theorem C3_exit_status (N : Network) :
  (script N = 0%Z \/ script N = 1%Z)
  /\ (report_write N = None -> script N = 0%Z)
  /\ (fst (main N []) = Raise KeyboardInterrupt -> script N = 0%Z)
  /\ (script N = 1%Z <->
      exists e,
        report_write N = Some e /\ is_Exception e = true
        /\ fst (main N []) = Raise e).
Proof.
  destruct (main_runs N []) as (r & pre & post & Hm & _ & Hr).
  unfold script. rewrite Hm. cbn [fst].
  destruct r as [report|e].
  - split; [now left|]. split; [reflexivity|]. split; [reflexivity|].
    split; [discriminate|]. intros (e & _ & _ & He). discriminate He.
  - destruct Hr as [->|(Hwrite & He)].
    + split; [now left|]. split; [reflexivity|]. split; [reflexivity|].
      split; [discriminate|]. intros (e & _ & He & Heq).
      injection Heq as <-. discriminate He.
    + assert (match e with KeyboardInterrupt => 0%Z | _ => 1%Z end = 1%Z) as ->
        by (destruct e; (reflexivity || discriminate He)).
      split; [now right|]. split; [congruence|].
      split; [intros Heq; injection Heq as ->; discriminate He|].
      split; [|reflexivity]. intros _. now exists e.
Qed.

Lemma C3_exit_status_witness :
  report_write unreachable = None /\ script unreachable = 0%Z.
Proof.
  split; [reflexivity|].
  apply (proj1 (proj2 (C3_exit_status unreachable))). reflexivity.
Defined.

(** C3, the claim as stated fails: when the report cannot be written, the
    exception escapes the main routine and the process ends with status 1. *)
Lemma C3_report_failure_exits_1 :
  fst (main read_only_disk [])
  = Raise (OtherException "[Errno 13] Permission denied")
  /\ script read_only_disk = 1%Z
  /\ script read_only_disk <> 0%Z.
Proof. repeat split; vm_compute; (reflexivity || discriminate). Qed.

End ProberFacts.

(** ** Further properties: strings *)

Module PyFacts.

Lemma append_assoc (a b c : string) : ((a ++ b) ++ c = a ++ (b ++ c))%string.
Proof. induction a as [|x a IH]; cbn; [reflexivity | now rewrite IH]. Qed.

(** [String.prefix k s] holds exactly when [s] starts with [k]. *)
Lemma prefix_starts (k : string) :
  forall s, String.prefix k s = true <-> exists b, s = k ++ b.
Proof.
  induction k as [|x k IH]; intros s.
  - split; [intros _; now exists s | intros _; now destruct s].
  - destruct s as [|y s]; cbn.
    + split; [discriminate | intros (b & Hb); discriminate Hb].
    + destruct (ascii_dec x y) as [->|Hneq].
      * rewrite IH. split; intros (b & Hb); exists b; congruence.
      * split; [discriminate|]. intros (b & Hb). congruence.
Qed.

(** [contains k s] holds exactly when [k] occurs in [s] as a contiguous
    substring, which is what Python's [k in s] tests. *)
Lemma contains_occurs (k s : string) :
  contains k s = true <-> exists a b, s = a ++ k ++ b.
Proof.
  induction s as [|y s IH]; cbn [contains].
  - rewrite orb_false_r, prefix_starts. split.
    + intros (b & Hb). now exists "", b.
    + intros (a & b & Hab). destruct a; [now exists b | discriminate Hab].
  - rewrite orb_true_iff, prefix_starts, IH. split.
    + intros [(b & Hb) | (a & b & Hab)].
      * now exists "", b.
      * exists (String y a), b. cbn. now rewrite Hab.
    + intros (a & b & Hab). destruct a as [|x a].
      * left. now exists b.
      * right. cbn in Hab. injection Hab as _ Hs. now exists a, b.
Qed.

(** An occurrence of a longer keyword is an occurrence of each of its
    parts. *)
Lemma contains_part (p k q s : string) :
  contains (p ++ k ++ q) s = true -> contains k s = true.
Proof.
  rewrite !contains_occurs. intros (a & b & ->).
  exists (a ++ p), (q ++ b). now rewrite !append_assoc.
Qed.

Lemma lower_ascii_idempotent (c : ascii) :
  lower_ascii (lower_ascii c) = lower_ascii c.
Proof. destruct c as [[] [] [] [] [] [] [] []]; reflexivity. Qed.

Lemma lower_idempotent (s : string) : lower (lower s) = lower s.
Proof.
  induction s as [|c s IH]; cbn; [reflexivity|].
  now rewrite lower_ascii_idempotent, IH.
Qed.

Lemma lower_length (s : string) : String.length (lower s) = String.length s.
Proof. induction s as [|c s IH]; cbn; [reflexivity | now rewrite IH]. Qed.

(** [s[:n]] has at most [n] characters and never more than [s]. *)
Lemma take_length (n : nat) (s : string) :
  String.length (take n s) = Nat.min n (String.length s).
Proof.
  unfold take. revert s.
  induction n as [|n IH]; intros s; cbn.
  - now destruct s.
  - destruct s as [|c s]; cbn; [reflexivity | now rewrite IH].
Qed.

Lemma append_length (a b : string) :
  String.length (a ++ b) = String.length a + String.length b.
Proof. induction a as [|c a IH]; cbn; [reflexivity | now rewrite IH]. Qed.

End PyFacts.

(** ** Further properties of the Monitor *)

Module MonitorExtras.

Import Monitor.
Import MonitorSpec.
Import PyFacts.

(** *** The keyword filter *)

(** X1: the filter of the "request sent" events and the filter of the
    "response received" events accept the same URLs: each of the four
    keywords that only the first list has contains a keyword of the
    second. *)
Theorem X1_request_and_response_filters_agree (u : string) :
  any_keyword REQUEST_KEYWORDS u = any_keyword RESPONSE_KEYWORDS u.
Proof.
  unfold any_keyword.
  change REQUEST_KEYWORDS
    with (RESPONSE_KEYWORDS ++ ["getais"; "marinetraffic"; "aishub"; "aisstream"])%list.
  rewrite existsb_app.
  destruct (existsb (fun keyword => contains keyword (lower u)) RESPONSE_KEYWORDS)
    eqn:Hshort; [reflexivity|].
  cbn [orb]. apply not_true_is_false. intros Hlong.
  assert (contains "ais" (lower u) = false /\ contains "marine" (lower u) = false)
    as (Hais & Hmarine).
  { cbn in Hshort. apply orb_false_iff in Hshort as (H1 & Hshort).
    apply orb_false_iff in Hshort as (H2 & _). now split. }
  cbn in Hlong.
  repeat (apply orb_true_iff in Hlong as [Hlong|Hlong]).
  - rewrite (contains_part "get" "ais" "" (lower u)) in Hais;
      [discriminate | exact Hlong].
  - rewrite (contains_part "" "marine" "traffic" (lower u)) in Hmarine;
      [discriminate | exact Hlong].
  - rewrite (contains_part "" "ais" "hub" (lower u)) in Hais;
      [discriminate | exact Hlong].
  - rewrite (contains_part "" "ais" "stream" (lower u)) in Hais;
      [discriminate | exact Hlong].
  - discriminate Hlong.
Qed.

(** X2: the filter accepts a URL exactly when a keyword occurs in the
    lowered URL as a contiguous substring, so that it does not depend on
    the case of the URL. *)
Theorem X2_filter_is_case_insensitive_substring
    (keywords : list string) (u : string) :
  (any_keyword keywords u = true <->
   exists keyword a b, In keyword keywords /\ lower u = a ++ keyword ++ b)
  /\ any_keyword keywords (lower u) = any_keyword keywords u.
Proof.
  unfold any_keyword. split.
  - rewrite existsb_exists. split.
    + intros (k & Hin & Hk). apply contains_occurs in Hk as (a & b & Hab).
      now exists k, a, b.
    + intros (k & a & b & Hin & Hab). exists k. split; [exact Hin|].
      apply contains_occurs. now exists a, b.
  - now rewrite lower_idempotent.
Qed.

(** *** The capture loop *)

Lemma update_matching_unmatched (rid : string) (f : Request -> Request)
    (rs : list Request) :
  (forall r, In r rs -> requestId r <> rid) ->
  update_matching rid f rs = rs.
Proof.
  intros Hnone. unfold update_matching.
  rewrite <- (map_id rs) at 2. apply map_ext_in. intros r Hr.
  destruct (String.eqb_spec (requestId r) rid) as [Heq|]; [|reflexivity].
  now destruct (Hnone r Hr).
Qed.

(** X3: a "response received" or a "loading failed" event whose request
    identifier is carried by no collected record changes nothing: no
    record is created for it and no record is touched; in general only a
    "request sent" event that passes the filter adds a record, and no event
    removes one. *)
Theorem X3_unmatched_event_is_dropped (rs : list Request) (log : LogItem) :
  List.length (handle_log rs log) = List.length rs + List.length (born log)
  /\ List.length (born log) <= 1
  /\ (forall u st st_text mime rid,
        entry log = ResponseReceived u st st_text mime rid ->
        (forall r, In r rs -> requestId r <> get rid "") ->
        handle_log rs log = rs)
  /\ (forall rid error_text,
        entry log = LoadingFailed rid error_text ->
        (forall r, In r rs -> requestId r <> get rid "") ->
        handle_log rs log = rs).
Proof.
  split; [|split; [|split]].
  - rewrite MonitorFacts.handle_log_split, length_app, length_map. reflexivity.
  - unfold born. destruct (entry log); cbn; try lia.
    destruct (any_keyword REQUEST_KEYWORDS (get req_url "")); cbn; lia.
  - intros u st st_text mime rid Hentry Hnone. unfold handle_log.
    rewrite Hentry.
    destruct (any_keyword RESPONSE_KEYWORDS (get u "")); [|reflexivity].
    now apply update_matching_unmatched.
  - intros rid error_text Hentry Hnone. unfold handle_log. rewrite Hentry.
    now apply update_matching_unmatched.
Qed.

Lemma X3_unmatched_event_witness :
  let rs := [fresh_request AIS_URL "12.1"] in
  let log := mkLogItem "10:36:22" (LoadingFailed (Some "99.9") (Some "net::ERR_FAILED")) in
  (forall r, In r rs -> requestId r <> "99.9")
  /\ handle_log rs log = rs.
Proof.
  intros rs log.
  assert (forall r, In r rs -> requestId r <> "99.9") as Hnone.
  { intros r [<-|[]]. discriminate. }
  split; [exact Hnone|].
  exact (proj2 (proj2 (proj2 (X3_unmatched_event_is_dropped rs log)))
           (Some "99.9") (Some "net::ERR_FAILED") eq_refl Hnone).
Defined.

(** One event leaves the identity of a record alone and removes none of
    its fields. *)
Lemma evolve_grows (log : LogItem) (r : Request) :
  let r' := evolve log r in
  (requestId r' = requestId r /\ url r' = url r
   /\ method r' = method r /\ timestamp r' = timestamp r)
  /\ (present (status r) -> present (status r'))
  /\ (present (status_text r) -> present (status_text r'))
  /\ (present (content_type r) -> present (content_type r'))
  /\ (failed r = Some true -> failed r' = Some true)
  /\ (present (error r) -> present (error r')).
Proof.
  unfold evolve, present.
  destruct (entry log) as [| |u m rid|u st st_text mime rid|rid txt|];
    try (cbn; tauto).
  - destruct (any_keyword RESPONSE_KEYWORDS (get u "")),
      (String.eqb (requestId r) (get rid "")); cbn;
      repeat split; (discriminate || tauto).
  - destruct (String.eqb (requestId r) (get rid "")); cbn;
      repeat split; (discriminate || tauto).
Qed.

Lemma evolve_all_grows (logs : list LogItem) :
  forall r : Request,
  let r' := evolve_all logs r in
  (requestId r' = requestId r /\ url r' = url r
   /\ method r' = method r /\ timestamp r' = timestamp r)
  /\ (present (status r) -> present (status r'))
  /\ (present (status_text r) -> present (status_text r'))
  /\ (present (content_type r) -> present (content_type r'))
  /\ (failed r = Some true -> failed r' = Some true)
  /\ (present (error r) -> present (error r')).
Proof.
  unfold evolve_all.
  induction logs as [|log logs IH]; intros r; cbn [fold_left].
  - tauto.
  - destruct (IH (evolve log r)) as ((Hi & Hu & Hm & Ht) & Hs & Hst & Hc & Hf & He).
    destruct (evolve_grows log r)
      as ((Hi' & Hu' & Hm' & Ht') & Hs' & Hst' & Hc' & Hf' & He').
    cbv zeta. rewrite Hi, Hu, Hm, Ht. repeat split; auto.
Qed.

(** X4: a collected record is never deleted, moved or stripped: whatever
    events follow, it stays at its position with the same timestamp, URL,
    method and request identifier, every field it has stays present, and a
    failed flag that is set stays set. *)
Theorem X4_records_only_gain_fields
    (logs : list LogItem) (rs : list Request) (i : nat) (r : Request) :
  nth_error rs i = Some r ->
  exists r',
    nth_error (fold_left handle_log logs rs) i = Some r'
    /\ (requestId r' = requestId r /\ url r' = url r
        /\ method r' = method r /\ timestamp r' = timestamp r)
    /\ (present (status r) -> present (status r'))
    /\ (present (status_text r) -> present (status_text r'))
    /\ (present (content_type r) -> present (content_type r'))
    /\ (failed r = Some true -> failed r' = Some true)
    /\ (present (error r) -> present (error r')).
Proof.
  intros Hnth. exists (evolve_all logs r). split.
  - rewrite MonitorFacts.capture_split.
    rewrite nth_error_app1.
    + now apply map_nth_error.
    + rewrite length_map. apply nth_error_Some. congruence.
  - apply evolve_all_grows.
Qed.

Lemma X4_records_witness :
  let rs := [redirected_request] in
  nth_error rs 0 = Some redirected_request
  /\ exists r',
       nth_error (fold_left handle_log sent_then_failed rs) 0 = Some r'
       /\ requestId r' = "12.1"
       /\ present (status r')
       /\ failed r' = Some true.
Proof.
  intros rs. split; [reflexivity|].
  destruct (X4_records_only_gain_fields sent_then_failed rs 0
              redirected_request eq_refl)
    as (r' & Hnth & (Hid & _) & Hs & _).
  exists r'. split; [exact Hnth|]. split; [exact Hid|].
  split; [apply Hs; discriminate|].
  vm_compute in Hnth. injection Hnth as <-. reflexivity.
Defined.

(** X5: how the browser batches the entries into polls does not matter:
    when every poll of the window is answered, the capture returns what
    the loop body makes of all the entries in order, which is what a
    single poll with all the entries gives. *)
Theorem X5_batching_is_irrelevant (polls : list (res (list LogItem))) :
  Forall answered_poll polls ->
  capture_network_logs polls = Ret (fold_left handle_log (window polls) [])
  /\ capture_network_logs polls = capture_network_logs [Ret (window polls)].
Proof.
  intros Hanswered.
  destruct (MonitorFacts.capture_loop_returns polls Hanswered []) as (rs & Hrs).
  pose proof (MonitorFacts.capture_loop_window polls [] rs Hrs) as Hwindow.
  unfold capture_network_logs. rewrite Hrs, Hwindow. split; reflexivity.
Qed.

Lemma X5_batching_witness :
  Forall answered_poll blocked_polls
  /\ capture_network_logs blocked_polls
     = capture_network_logs [Ret (window blocked_polls)].
Proof.
  assert (Forall answered_poll blocked_polls) as H.
  { repeat constructor; eexists; reflexivity. }
  split; [exact H|]. exact (proj2 (X5_batching_is_irrelevant blocked_polls H)).
Defined.

Lemma capture_loop_raises (before after : list (res (list LogItem))) (e : exn) :
  Forall answered_poll before ->
  forall rs, capture_loop (before ++ Raise e :: after) rs = Raise e.
Proof.
  induction 1 as [|poll before (logs & ->) _ IH]; intros rs; cbn;
    [reflexivity | apply IH].
Qed.

(** X6: a poll of the performance log that raises is not caught: the
    capture raises the same exception and gives back none of the records
    collected so far, the run returns no analysis, and the process ends
    with status 1 or 130, never with 0 or 2. *)
Theorem X6_failing_poll_aborts_the_run
    (B : Browser) (s : Session) (before after : list (res (list LogItem)))
    (e : exn) :
  performance_polls B = (before ++ Raise e :: after)%list ->
  Forall answered_poll before ->
  capture_network_logs (performance_polls B) = Raise e
  /\ (forall a s', run_full_diagnostic B s <> (Ret (AnalysisResult a), s'))
  /\ (main B s = 1%Z \/ main B s = 130%Z).
Proof.
  intros Hpolls Hbefore.
  assert (capture_network_logs (performance_polls B) = Raise e) as Hcap.
  { rewrite Hpolls. now apply capture_loop_raises. }
  assert (forall a s', run_full_diagnostic B s <> (Ret (AnalysisResult a), s'))
    as Hnone.
  { intros a s' Hrun.
    destruct (MonitorFacts.run_returns_analysis B s s' a Hrun)
      as (reqs & _ & _ & Hc & _). congruence. }
  split; [exact Hcap|]. split; [exact Hnone|].
  unfold main.
  destruct (run_full_diagnostic B s) as [[[msg|a]|ex] s'] eqn:Hrun.
  - now left.
  - now destruct (Hnone a s').
  - destruct ex; auto.
Qed.

Lemma X6_failing_poll_witness :
  let B := sample_browser find_nothing failing_polls in
  Forall answered_poll [Ret [sent "10:36:20" "12.1"]]
  /\ capture_network_logs (performance_polls B)
     = Raise (OtherException "invalid session id")
  /\ main B (new_session nothing_ticked) = 1%Z.
Proof.
  intros B.
  assert (Forall answered_poll [Ret [sent "10:36:20" "12.1"]]) as H.
  { repeat constructor. eexists; reflexivity. }
  split; [exact H|].
  destruct (X6_failing_poll_aborts_the_run B (new_session nothing_ticked)
              [Ret [sent "10:36:20" "12.1"]] []
              (OtherException "invalid session id") eq_refl H)
    as (Hcap & _ & _).
  split; [exact Hcap | reflexivity].
Defined.

(** *** The analysis *)

Lemma analyze_request_keeps (a : Analysis) (req : Request) :
  let a' := analyze_request a req in
  javascript_errors a' = javascript_errors a
  /\ raw_errors a' = raw_errors a
  /\ (List.length (findings a) = failed_requests a + blocked_requests a ->
      List.length (findings a') = failed_requests a' + blocked_requests a').
Proof.
  unfold analyze_request.
  destruct (failed_flag req);
    [cbn; rewrite length_app; cbn; repeat split; lia|].
  destruct (status req) as [st|]; [|cbn; tauto].
  destruct ((200 <=? st)%Z && (st <? 300)%Z); [cbn; tauto|].
  destruct (in_ints st [401%Z; 403%Z]);
    cbn; rewrite length_app; cbn; repeat split; lia.
Qed.

Lemma analyze_loop_keeps (reqs : list Request) :
  forall a : Analysis,
  let a' := fold_left analyze_request reqs a in
  javascript_errors a' = javascript_errors a
  /\ raw_errors a' = raw_errors a
  /\ (List.length (findings a) = failed_requests a + blocked_requests a ->
      List.length (findings a') = failed_requests a' + blocked_requests a').
Proof.
  induction reqs as [|req reqs IH]; intros a; cbn [fold_left]; [tauto|].
  destruct (IH (analyze_request a req)) as (Hj & He & Hf).
  destruct (analyze_request_keeps a req) as (Hj' & He' & Hf').
  cbv zeta. rewrite Hj, He. auto.
Qed.

Lemma determine_root_cause_keeps (a : Analysis) :
  let a' := determine_root_cause a in
  javascript_errors a' = javascript_errors a
  /\ raw_errors a' = raw_errors a
  /\ findings a' = findings a.
Proof.
  unfold determine_root_cause.
  destruct (ais_requests_found a =? 0)%nat; [cbn; tauto|].
  destruct (0 <? blocked_requests a)%nat; [cbn; tauto|].
  destruct (0 <? failed_requests a)%nat; [cbn; tauto|].
  destruct (0 <? successful_requests a)%nat; cbn; tauto.
Qed.

(** X7: every analysis lists exactly one finding for each request counted
    as failed or as blocked and none for a successful or an unanswered one,
    and it reports the JavaScript errors it was given, all of them. *)
Theorem X7_one_finding_per_failed_or_blocked
    (now : string) (network_requests : list Request) (js_errors : list string) :
  let a := analyze_results now network_requests js_errors in
  List.length (findings a) = failed_requests a + blocked_requests a
  /\ javascript_errors a = List.length js_errors
  /\ raw_errors a = js_errors.
Proof.
  cbv zeta. unfold analyze_results.
  set (a0 := mkAnalysis _ _ _ _ _ _ _ _ _ _ _).
  set (a1 := fold_left analyze_request network_requests a0).
  destruct (determine_root_cause_keeps a1) as (Hj & He & Hf).
  destruct (MonitorFacts.determine_root_cause_counts a1)
    as (_ & _ & Hfailed & Hblocked & _).
  destruct (analyze_loop_keeps network_requests a0) as (Hj0 & He0 & Hf0).
  rewrite Hj, He, Hf, Hfailed, Hblocked. fold a1 in Hj0, He0, Hf0.
  rewrite Hj0, He0. split; [apply Hf0; reflexivity | split; reflexivity].
Qed.

Lemma count_if_permutation {A : Type} (p : A -> bool) (l l' : list A) :
  Permutation l l' -> count_if p l = count_if p l'.
Proof.
  induction 1 as [|x l l' _ IH|x y l|l l' l'' _ IH1 _ IH2].
  - reflexivity.
  - rewrite !MonitorFacts.count_if_cons. now rewrite IH.
  - rewrite !MonitorFacts.count_if_cons. lia.
  - congruence.
Qed.

(** X8: the verdict does not depend on the order in which the requests
    were captured: two sequences with the same records give the same four
    counts and the same root cause. *)
Theorem X8_analysis_ignores_order
    (now now' : string) (reqs reqs' : list Request) (js js' : list string) :
  Permutation reqs reqs' ->
  let a := analyze_results now reqs js in
  let a' := analyze_results now' reqs' js' in
  ais_requests_found a = ais_requests_found a'
  /\ successful_requests a = successful_requests a'
  /\ failed_requests a = failed_requests a'
  /\ blocked_requests a = blocked_requests a'
  /\ root_cause a = root_cause a'.
Proof.
  intros Hperm. cbv zeta. unfold analyze_results.
  set (a0 := mkAnalysis now _ _ _ _ _ _ _ _ _ _).
  set (a0' := mkAnalysis now' _ _ _ _ _ _ _ _ _ _).
  rewrite !MonitorFacts.determine_root_cause_text.
  destruct (MonitorFacts.determine_root_cause_counts
              (fold_left analyze_request reqs a0)) as (-> & -> & -> & -> & _).
  destruct (MonitorFacts.determine_root_cause_counts
              (fold_left analyze_request reqs' a0')) as (-> & -> & -> & -> & _).
  destruct (MonitorFacts.analyze_loop_counts reqs a0) as (-> & -> & -> & ->).
  destruct (MonitorFacts.analyze_loop_counts reqs' a0') as (-> & -> & -> & ->).
  subst a0 a0'. cbn [ais_requests_found successful_requests failed_requests
                     blocked_requests].
  rewrite (Permutation_length Hperm).
  rewrite (count_if_permutation (status_is is_2xx) _ _ Hperm).
  rewrite (count_if_permutation (status_is is_blocked_status) _ _ Hperm).
  rewrite (count_if_permutation failed_flag _ _ Hperm).
  rewrite (count_if_permutation (status_is is_other_status) _ _ Hperm).
  repeat split; reflexivity.
Qed.

Lemma X8_analysis_order_witness :
  let reqs := [redirected_request; fresh_request AIS_URL "12.2"] in
  Permutation reqs (rev reqs)
  /\ root_cause (analyze_results "t" reqs [])
     = root_cause (analyze_results "t" (rev reqs) []).
Proof.
  intros reqs.
  assert (Permutation reqs (rev reqs)) as H by apply Permutation_rev.
  split; [exact H|].
  apply (X8_analysis_ignores_order "t" "t" reqs (rev reqs) [] [] H).
Defined.

(** *** The session *)

Lemma keeps_ret {A : Type} (a : A) : keeps_session (ret a).
Proof. intros s. split; reflexivity. Qed.

Lemma keeps_answered {A : Type} (r : res A) : keeps_session (answered r).
Proof. intros s. split; reflexivity. Qed.

Lemma keeps_external (o : option exn) : keeps_session (external o).
Proof. intros s. destruct o; split; reflexivity. Qed.

Lemma keeps_bind {A C : Type} (m : M Session A) (k : A -> M Session C) :
  keeps_session m ->
  (forall a, keeps_session (k a)) ->
  keeps_session (bind m k).
Proof.
  intros Hm Hk s. unfold bind.
  pose proof (Hm s) as (Hd & Hq).
  destruct (m s) as [[a|e] s1]; cbn in *; [|now split].
  destruct (Hk a s1) as (Hd' & Hq'). split; congruence.
Qed.

Lemma keeps_try_except {A : Type} (body : M Session A)
    (handler : exn -> option (M Session A)) :
  keeps_session body ->
  (forall e h, handler e = Some h -> keeps_session h) ->
  keeps_session (try_except body handler).
Proof.
  intros Hb Hh s. unfold try_except.
  pose proof (Hb s) as (Hd & Hq).
  destruct (body s) as [[a|e] s1]; cbn in *; [now split|].
  destruct (handler e) as [h|] eqn:He; [|now split].
  destruct (Hh e h He s1) as (Hd' & Hq'). split; congruence.
Qed.

Lemma keeps_except_Exception {A : Type} (a : A) (e : exn) (h : M Session A) :
  except_Exception (ret a) e = Some h -> keeps_session h.
Proof.
  unfold except_Exception. destruct (is_Exception e); [|discriminate].
  intros [= <-]. apply keeps_ret.
Qed.

Section StepFacts.

Variable B : Browser.

Lemma keeps_click (e : elem) : keeps_session (click B e).
Proof. intros s. unfold click. destruct (click_raises B e); split; reflexivity. Qed.

Lemma keeps_is_selected (e : elem) : keeps_session (is_selected B e).
Proof.
  intros s. unfold is_selected.
  destruct (is_selected_raises B e); split; reflexivity.
Qed.

Lemma keeps_load_openseamap : keeps_session (load_openseamap B).
Proof.
  unfold load_openseamap. apply keeps_try_except.
  - repeat (apply keeps_bind; [apply keeps_external | intros _]).
    apply keeps_ret.
  - intros e h He. destruct e; try (now apply keeps_except_Exception in He).
    injection He as <-. apply keeps_ret.
Qed.

Lemma keeps_find_ais_checkbox : keeps_session (find_ais_checkbox B).
Proof.
  intros s. rewrite MonitorFacts.find_ais_checkbox_first_match.
  split; reflexivity.
Qed.

Lemma keeps_open_view_menu : keeps_session (open_view_menu B).
Proof.
  unfold open_view_menu. apply keeps_try_except.
  - apply keeps_bind; [apply keeps_answered | intros v; apply keeps_click].
  - intros e h [= <-]. apply keeps_ret.
Qed.

Lemma keeps_enable_ais_layer : keeps_session (enable_ais_layer B).
Proof.
  unfold enable_ais_layer. apply keeps_try_except.
  - apply keeps_bind; [apply keeps_open_view_menu | intros _].
    apply keeps_bind; [apply keeps_find_ais_checkbox | intros [c|]].
    + apply keeps_bind; [apply keeps_is_selected | intros selected].
      apply keeps_bind; [|intros _; apply keeps_ret].
      destruct selected; [apply keeps_ret | apply keeps_click].
    + apply keeps_ret.
  - intros e h He. now apply keeps_except_Exception in He.
Qed.

Lemma keeps_check_javascript_errors :
  keeps_session (check_javascript_errors B).
Proof.
  unfold check_javascript_errors. apply keeps_try_except.
  - apply keeps_bind; [apply keeps_answered | intros logs; apply keeps_ret].
  - intros e h He. now apply keeps_except_Exception in He.
Qed.

Lemma keeps_take_screenshot : keeps_session (take_screenshot B).
Proof.
  unfold take_screenshot. apply keeps_try_except.
  - apply keeps_bind; [apply keeps_external | intros _; apply keeps_ret].
  - intros e h He. now apply keeps_except_Exception in He.
Qed.

End StepFacts.

(** X9: the browser session is released exactly once whenever it was
    acquired, on every way out of the run (an early error result, an
    analysis, an exception, a keyboard interrupt), and it is never
    released when the driver did not start. *)
Theorem X9_session_released_exactly_once (B : Browser) (s : Session) :
  quit_raises B = None ->
  quits (snd (run_full_diagnostic B s))
  = match chrome_start B with
    | None => S (quits s)
    | Some _ => quits s
    end.
Proof.
  intros Hquit. unfold run_full_diagnostic. unfold bind at 1.
  destruct (chrome_start B) as [e|] eqn:Hstart.
  - destruct (is_Exception e) eqn:He.
    + now rewrite (MonitorFacts.setup_driver_failed B s e Hstart He).
    + unfold setup_driver, try_except, bind, external, except_Exception.
      rewrite Hstart. cbn. now rewrite He.
  - rewrite (MonitorFacts.setup_driver_started B s Hstart). cbn [negb].
    set (s0 := mkSession true (checked s) (clicks s) (quits s)).
    unfold try_finally.
    match goal with
    | |- context [let (r, s') := ?body s0 in _] =>
        assert (keeps_session body) as Hkeeps
    end.
    { apply keeps_bind; [apply keeps_load_openseamap | intros loaded].
      destruct loaded; cbn [negb]; [|apply keeps_ret].
      apply keeps_bind; [apply keeps_enable_ais_layer | intros _].
      apply keeps_bind; [apply keeps_answered | intros reqs].
      apply keeps_bind; [apply keeps_check_javascript_errors | intros js].
      apply keeps_bind; [apply keeps_take_screenshot | intros shot].
      apply keeps_bind; [apply keeps_external | intros _; apply keeps_ret]. }
    match goal with
    | |- context [let (r, s') := ?body s0 in _] =>
        destruct (Hkeeps s0) as (Hd & Hq); destruct (body s0) as [r s1]
    end.
    cbn in Hd, Hq. rewrite Hd. unfold quit. rewrite Hquit. cbn.
    now rewrite Hq.
Qed.

Lemma X9_session_released_witness :
  quits (snd (run_full_diagnostic (sample_browser find_nothing failing_polls)
                (new_session nothing_ticked))) = 1
  /\ quits (snd (run_full_diagnostic no_map (new_session nothing_ticked))) = 1
  /\ quits (snd (run_full_diagnostic no_chrome (new_session nothing_ticked))) = 0.
Proof.
  split; [|split].
  - exact (X9_session_released_exactly_once
             (sample_browser find_nothing failing_polls)
             (new_session nothing_ticked) eq_refl).
  - exact (X9_session_released_exactly_once no_map
             (new_session nothing_ticked) eq_refl).
  - exact (X9_session_released_exactly_once no_chrome
             (new_session nothing_ticked) eq_refl).
Defined.

Lemma guarded_never_raises {A : Type} (body : M Session A)
    (handler : exn -> option (M Session A)) :
  (forall e, is_Exception e = true -> exists a, handler e = Some (ret a)) ->
  handler KeyboardInterrupt = None ->
  never_raises_Exception (try_except body handler).
Proof.
  intros Hcatch Hint s. unfold try_except.
  destruct (body s) as [[a|e] s1]; cbn; [trivial|].
  destruct (is_Exception e) eqn:He.
  - destruct (Hcatch e He) as (a & ->). cbn. trivial.
  - destruct e; try discriminate He. rewrite Hint. reflexivity.
Qed.

Lemma except_Exception_catches {A : Type} (a : A) (e : exn) :
  is_Exception e = true ->
  exists a', except_Exception (St:=Session) (ret a) e = Some (ret a').
Proof. intros He. unfold except_Exception. rewrite He. now exists a. Qed.

(** X10: the steps that the run wraps in a handler let no [Exception]
    escape: setting up the driver, loading the page, enabling the layer,
    reading the console log and taking the screenshot either return or are
    interrupted from the keyboard; the view-menu step, under its bare
    [except], returns even then. *)
Theorem X10_wrapped_steps_never_raise (B : Browser) :
  never_raises_Exception (setup_driver B)
  /\ never_raises_Exception (load_openseamap B)
  /\ never_raises_Exception (enable_ais_layer B)
  /\ never_raises_Exception (check_javascript_errors B)
  /\ never_raises_Exception (take_screenshot B)
  /\ (forall s, exists s1, open_view_menu B s = (Ret tt, s1)).
Proof.
  repeat match goal with |- _ /\ _ => split end.
  - apply guarded_never_raises;
      [intros e He; now apply except_Exception_catches | reflexivity].
  - apply guarded_never_raises; [|reflexivity].
    intros e He. destruct e; try discriminate He;
      try (now apply except_Exception_catches); now exists false.
  - apply guarded_never_raises;
      [intros e He; now apply except_Exception_catches | reflexivity].
  - apply guarded_never_raises;
      [intros e He; now apply except_Exception_catches | reflexivity].
  - apply guarded_never_raises;
      [intros e He; now apply except_Exception_catches | reflexivity].
  - intros s.
    destruct (MonitorFacts.open_view_menu_returns B s) as (s1 & H & _).
    now exists s1.
Qed.

(** A keyboard interrupt during the lookup of the view menu is swallowed. *)
Example interrupt_in_view_menu_is_swallowed :
  open_view_menu (sample_browser find_interrupted_menu [])
    (new_session nothing_ticked)
  = (Ret tt, new_session nothing_ticked).
Proof. reflexivity. Qed.

Lemma first_match_raises (find : selector_type -> string -> res elem)
    (before after : list (selector_type * string))
    (t : selector_type) (sel : string) (e : exn) :
  (forall p, In p before -> find (fst p) (snd p) = Raise NoSuchElementException) ->
  find t sel = Raise e ->
  e <> NoSuchElementException ->
  first_match find (before ++ (t, sel) :: after) = Raise e.
Proof.
  intros Hbefore Hraise Hother.
  induction before as [|[t0 sel0] before IH]; cbn [app first_match].
  - rewrite Hraise. destruct e; try reflexivity. now destruct Hother.
  - pose proof (Hbefore (t0, sel0) (or_introl eq_refl)) as H0. cbn in H0.
    rewrite H0. apply IH. intros p Hp. apply Hbefore. now right.
Qed.

(** X11: a strategy that raises anything but [NoSuchElementException]
    ends the search: the strategies after it are not tried, whatever they
    would find; [enable_ais_layer] then reports failure and clicks no
    checkbox. *)
Theorem X11_search_stops_at_other_exception
    (B : Browser) (s : Session)
    (before after : list (selector_type * string))
    (t : selector_type) (sel : string) (e : exn) :
  possible_selectors = (before ++ (t, sel) :: after)%list ->
  (forall p, In p before ->
             find_element B (fst p) (snd p) = Raise NoSuchElementException) ->
  find_element B t sel = Raise e ->
  e <> NoSuchElementException ->
  find_ais_checkbox B s = (Raise e, s)
  /\ (is_Exception e = true ->
      exists s1,
        enable_ais_layer B s = (Ret false, s1)
        /\ forall c,
             (forall v, find_element B XPATH VIEW_MENU = Ret v -> v <> c) ->
             checked s1 c = checked s c /\ clicks_on c s1 = clicks_on c s).
Proof.
  intros Hsplit Hbefore Hraise Hother.
  assert (first_match (find_element B) possible_selectors = Raise e) as Hfirst.
  { rewrite Hsplit. now apply first_match_raises. }
  split; [now rewrite MonitorFacts.find_ais_checkbox_first_match, Hfirst|].
  intros He.
  destruct (MonitorFacts.open_view_menu_returns B s) as (s1 & Hopen & _ & _ & Hkeep).
  exists s1. split; [|exact Hkeep].
  unfold enable_ais_layer, try_except, bind.
  rewrite Hopen, MonitorFacts.find_ais_checkbox_first_match, Hfirst.
  unfold except_Exception. now rewrite He.
Qed.

Lemma X11_search_stops_witness :
  let B := sample_browser find_broken_css [] in
  find_element B XPATH "//label[contains(text(), 'AIS')]/../input" = Ret 7
  /\ find_ais_checkbox B (new_session nothing_ticked)
     = (Raise (OtherException "invalid selector"), new_session nothing_ticked)
  /\ exists s1,
       enable_ais_layer B (new_session nothing_ticked) = (Ret false, s1)
       /\ clicks_on 7 s1 = 0.
Proof.
  intros B. split; [reflexivity|].
  destruct (X11_search_stops_at_other_exception B (new_session nothing_ticked)
              [(ID, "checkLayerAis")]
              [(XPATH, "//input[@type='checkbox' and contains(@id, 'Ais')]");
               (XPATH, "//label[contains(text(), 'Marine Traffic')]/../input");
               (XPATH, "//label[contains(text(), 'AIS')]/../input")]
              CSS "input[id='checkLayerAis']"
              (OtherException "invalid selector") eq_refl)
    as (Hfind & Henable).
  - intros p [<-|[]]. reflexivity.
  - reflexivity.
  - discriminate.
  - split; [exact Hfind|].
    destruct (Henable eq_refl) as (s1 & Hen & Hkeep).
    exists s1. split; [exact Hen|].
    destruct (Hkeep 7) as (_ & Hclicks); [|exact Hclicks].
    intros v Hv. vm_compute in Hv. injection Hv as <-. discriminate.
Defined.

Lemma severe_entries_of_filter (logs : list (string * string)) :
  severe_entries logs
    (map (fun log => fst log ++ ": " ++ snd log)
       (filter (fun log => is_error_level (fst log)) logs)).
Proof.
  induction logs as [|[level message] logs IH]; cbn [filter map fst snd].
  - constructor.
  - unfold is_error_level.
    destruct (String.eqb_spec level "SEVERE") as [Hs|Hs]; cbn [orb].
    + cbn [map fst snd]. constructor; [now left | exact IH].
    + destruct (String.eqb_spec level "ERROR") as [He|He].
      * cbn [map fst snd]. constructor; [now right | exact IH].
      * now constructor.
Qed.

Lemma severe_entries_functional (logs : list (string * string))
    (errors : list string) :
  severe_entries logs errors ->
  forall errors', severe_entries logs errors' -> errors' = errors.
Proof.
  induction 1 as [|level message logs errors Hlevel _ IH
                  |level message logs errors Hs He _ IH];
    intros errors' H'; inversion H'; subst.
  - reflexivity.
  - f_equal. now apply IH.
  - now destruct Hlevel.
  - match goal with H : _ \/ _ |- _ => now destruct H end.
  - now apply IH.
Qed.

(** X12: the console check returns the console entries whose level is
    [SEVERE] or [ERROR], each written as "level: message", in the order of
    the console log and as many times as they occur there, and nothing
    else; when the console log cannot be read it reports no error instead
    of failing. *)
Theorem X12_console_errors_are_the_severe_entries (B : Browser) (s : Session) :
  (forall logs,
     browser_log B = Ret logs ->
     exists errors,
       check_javascript_errors B s = (Ret errors, s)
       /\ severe_entries logs errors
       /\ (forall errors', severe_entries logs errors' -> errors' = errors)
       /\ List.length errors = count_if (fun log => is_error_level (fst log)) logs
       /\ forall err,
            In err errors <->
            exists level message,
              In (level, message) logs
              /\ (level = "SEVERE" \/ level = "ERROR")
              /\ err = level ++ ": " ++ message)
  /\ (forall e,
        browser_log B = Raise e -> is_Exception e = true ->
        check_javascript_errors B s = (Ret [], s)).
Proof.
  split.
  - intros logs Hlogs. eexists. split; [|split; [|split; [|split]]].
    + unfold check_javascript_errors, try_except, bind, answered.
      rewrite Hlogs. reflexivity.
    + apply severe_entries_of_filter.
    + apply severe_entries_functional, severe_entries_of_filter.
    + unfold count_if. now rewrite length_map.
    + intros err. rewrite in_map_iff. split.
      * intros ([level message] & <- & Hin). apply filter_In in Hin as (Hin & Hlevel).
        exists level, message. split; [exact Hin|]. split; [|reflexivity].
        cbn in Hlevel. unfold is_error_level in Hlevel.
        apply orb_true_iff in Hlevel as [H|H]; apply String.eqb_eq in H; auto.
      * intros (level & message & Hin & Hlevel & ->).
        exists (level, message). split; [reflexivity|].
        apply filter_In. split; [exact Hin|]. cbn. unfold is_error_level.
        destruct Hlevel as [->| ->]; reflexivity.
  - intros e Hlog He.
    unfold check_javascript_errors, try_except, bind, answered, except_Exception.
    rewrite Hlog. cbn. now rewrite He.
Qed.

Lemma X12_console_errors_witness :
  let B := sample_browser find_nothing [] in
  browser_log B = Ret [("SEVERE", "Uncaught TypeError"); ("INFO", "ready")]
  /\ check_javascript_errors B (new_session nothing_ticked)
     = (Ret ["SEVERE: Uncaught TypeError"], new_session nothing_ticked).
Proof.
  intros B. split; [reflexivity|].
  destruct (proj1 (X12_console_errors_are_the_severe_entries B
                     (new_session nothing_ticked)) _ eq_refl)
    as (errors & Hrun & _ & Hunique & _).
  rewrite Hrun. f_equal. f_equal. symmetry. apply Hunique.
  apply (severe_keep "SEVERE" "Uncaught TypeError"); [now left|].
  apply severe_skip; [discriminate | discriminate | constructor].
Defined.

(** *** The exit status of a completed run *)

Lemma count_if_positive {A : Type} (p : A -> bool) (l : list A) :
  0 < count_if p l <-> exists x, In x l /\ p x = true.
Proof.
  unfold count_if. split.
  - intros Hpos. destruct (filter p l) as [|x rest] eqn:Hf; [cbn in Hpos; lia|].
    exists x. apply filter_In. rewrite Hf. now left.
  - intros (x & Hin & Hp).
    assert (In x (filter p l)) as Hx by (apply filter_In; now split).
    destruct (filter p l); [destruct Hx | cbn; lia].
Qed.

Lemma not_successful_classes (r : Request) :
  failed_flag r || status_is is_other_status r || status_is is_blocked_status r
  = true
  <-> failed_flag r = true
      \/ exists st, status r = Some st /\ is_2xx st = false.
Proof.
  unfold status_is, is_other_status.
  destruct (failed_flag r); cbn; [split; auto|].
  destruct (status r) as [st|]; cbn.
  - destruct (is_2xx st) eqn:H2, (is_blocked_status st) eqn:Hb; cbn.
    + unfold is_2xx, is_blocked_status in *. lia.
    + split; [discriminate|]. intros [H|(st' & [= <-] & H)]; congruence.
    + split; [|reflexivity]. intros _. right. now exists st.
    + split; [|reflexivity]. intros _. right. now exists st.
  - split; [discriminate|]. intros [H|(st & H & _)]; discriminate.
Qed.

(** X20: when a run completes, its exit status is decided by the captured
    requests alone: it is 2 exactly when some captured request is flagged
    as failed or was answered with a status outside 200..299, and 0
    otherwise; requests that were never answered do not raise the status,
    and neither do JavaScript errors or a failed screenshot. *)
Theorem X20_exit_status_of_a_completed_run
    (B : Browser) (s s' : Session) (a : Analysis) (reqs : list Request) :
  run_full_diagnostic B s = (Ret (AnalysisResult a), s') ->
  capture_network_logs (performance_polls B) = Ret reqs ->
  raw_requests a = reqs
  /\ ais_requests_found a = List.length reqs
  /\ (main B s = 2%Z <->
      exists r,
        In r reqs
        /\ (failed_flag r = true
            \/ exists st, status r = Some st /\ is_2xx st = false))
  /\ (main B s = 0%Z \/ main B s = 2%Z).
Proof.
  intros Hrun Hcap.
  destruct (MonitorFacts.run_returns_analysis B s s' a Hrun)
    as (reqs' & js & shot & Hcap' & ->).
  assert (reqs' = reqs) as -> by congruence.
  set (a1 := analyze_results (analysis_time B) reqs js).
  assert (failed_requests a1
          = count_if failed_flag reqs + count_if (status_is is_other_status) reqs
          /\ blocked_requests a1 = count_if (status_is is_blocked_status) reqs
          /\ ais_requests_found a1 = List.length reqs)
    as (Hfailed & Hblocked & Hfound).
  { subst a1. unfold analyze_results.
    set (a0 := mkAnalysis _ _ _ _ _ _ _ _ _ _ _).
    destruct (MonitorFacts.determine_root_cause_counts
                (fold_left analyze_request reqs a0)) as (-> & _ & -> & -> & _).
    destruct (MonitorFacts.analyze_loop_counts reqs a0) as (-> & _ & -> & ->).
    subst a0. cbn. repeat split; lia. }
  assert (main B s
          = if (0 <? failed_requests a1)%nat || (0 <? blocked_requests a1)%nat
            then 2%Z else 0%Z) as Hmain.
  { unfold main. rewrite Hrun. reflexivity. }
  split; [cbn [set_screenshot raw_requests]; apply MonitorFacts.analyze_results_raw|].
  split; [exact Hfound|]. split.
  - rewrite Hmain, Hfailed, Hblocked. split.
    + intros H2.
      destruct ((0 <? count_if failed_flag reqs
                      + count_if (status_is is_other_status) reqs)%nat
                || (0 <? count_if (status_is is_blocked_status) reqs)%nat)
        eqn:Hany; [|discriminate H2].
      assert (0 < count_if failed_flag reqs
              \/ 0 < count_if (status_is is_other_status) reqs
              \/ 0 < count_if (status_is is_blocked_status) reqs) as Hpos.
      { apply orb_true_iff in Hany as [H|H]; apply Nat.ltb_lt in H; lia. }
      destruct Hpos as [H|[H|H]];
        apply count_if_positive in H as (r & Hin & Hr);
        exists r; (split; [exact Hin|]);
        apply not_successful_classes; rewrite Hr;
        repeat rewrite orb_true_r; reflexivity.
    + intros (r & Hin & Hr). apply not_successful_classes in Hr.
      assert (0 < count_if failed_flag reqs
              \/ 0 < count_if (status_is is_other_status) reqs
              \/ 0 < count_if (status_is is_blocked_status) reqs) as Hpos.
      { apply orb_true_iff in Hr as [Hr|Hr];
          [apply orb_true_iff in Hr as [Hr|Hr]|].
        - left. apply count_if_positive. now exists r.
        - right. left. apply count_if_positive. now exists r.
        - right. right. apply count_if_positive. now exists r. }
      destruct Hpos as [H|[H|H]].
      * assert ((0 <? count_if failed_flag reqs
                      + count_if (status_is is_other_status) reqs)%nat = true)
          as -> by (apply Nat.ltb_lt; lia). reflexivity.
      * assert ((0 <? count_if failed_flag reqs
                      + count_if (status_is is_other_status) reqs)%nat = true)
          as -> by (apply Nat.ltb_lt; lia). reflexivity.
      * apply Nat.ltb_lt in H. rewrite H. now rewrite orb_true_r.
  - rewrite Hmain.
    destruct ((0 <? failed_requests a1)%nat || (0 <? blocked_requests a1)%nat);
      auto.
Qed.

Lemma X20_exit_status_witness :
  let B := sample_browser find_nothing blocked_polls in
  exists a s' reqs,
    run_full_diagnostic B (new_session nothing_ticked)
    = (Ret (AnalysisResult a), s')
    /\ capture_network_logs (performance_polls B) = Ret reqs
    /\ ais_requests_found a = 1
    /\ main B (new_session nothing_ticked) = 2%Z.
Proof.
  intros B. eexists. eexists. eexists.
  split; [reflexivity|]. split; [reflexivity|].
  destruct (X20_exit_status_of_a_completed_run B (new_session nothing_ticked)
              _ _ _ eq_refl eq_refl) as (_ & Hfound & _).
  split; [exact Hfound | reflexivity].
Defined.

End MonitorExtras.

(** ** Further properties of the Prober *)

Module ProberExtras.

Import Prober.
Import ProberSpec.
Import PyFacts.
Import ProberFacts.

(** *** The probes *)








(** *** Name resolution *)

Lemma dict_set_fresh {V : Type} (key : string) (value : V)
    (d : list (string * V)) :
  ~ In key (map fst d) ->
  dict_set key value d = (d ++ [(key, value)])%list.
Proof.
  induction d as [|[k v] d IH]; intros Hfresh; cbn; [reflexivity|].
  destruct (String.eqb_spec k key) as [->|_].
  - destruct Hfresh. now left.
  - rewrite IH; [reflexivity|]. intros Hin. apply Hfresh. now right.
Qed.

Lemma check_dns_loop_cons (N : Network) (domain : string)
    (rest : list string) (results : list (string * ProbeResult)) (log : Trace) :
  check_dns_loop N (domain :: rest) results log
  = match resolve N domain with
    | Raise KeyboardInterrupt =>
        (Raise KeyboardInterrupt, (log ++ [GetHostByName domain])%list)
    | answer =>
        check_dns_loop N rest (dict_set domain (dns_outcome answer) results)
          (log ++ [GetHostByName domain])%list
    end.
Proof.
  cbn [check_dns_loop].
  unfold bind, try_except, gethostbyname, ret, except_Exception_error.
  destruct (resolve N domain) as [ip|e]; [reflexivity|].
  destruct e; reflexivity.
Qed.

Lemma check_dns_loop_distinct (N : Network) (domains : list string) :
  NoDup domains ->
  (forall d, In d domains -> resolve N d <> Raise KeyboardInterrupt) ->
  forall results log,
  (forall d, In d domains -> ~ In d (map fst results)) ->
  check_dns_loop N domains results log
  = (Ret (results ++ map (fun d => (d, dns_outcome (resolve N d))) domains)%list,
     (log ++ map GetHostByName domains)%list).
Proof.
  induction 1 as [|domain rest Hnotin _ IH]; intros Hanswer results log Hfresh.
  - cbn. now rewrite !app_nil_r.
  - rewrite check_dns_loop_cons.
    assert (check_dns_loop N rest
              (dict_set domain (dns_outcome (resolve N domain)) results)
              (log ++ [GetHostByName domain])%list
            = (Ret (results
                      ++ map (fun d => (d, dns_outcome (resolve N d)))
                           (domain :: rest))%list,
               (log ++ map GetHostByName (domain :: rest))%list)) as Hrest.
    { rewrite dict_set_fresh by (apply Hfresh; now left).
      rewrite IH.
      - cbn [map]. now rewrite <- !app_assoc.
      - intros d Hd. apply Hanswer. now right.
      - intros d Hd. rewrite map_app, in_app_iff. cbn.
        intros [Hin|[<-|[]]].
        + apply (Hfresh d); [now right | exact Hin].
        + contradiction. }
    pose proof (Hanswer domain (or_introl eq_refl)) as Hdomain.
    destruct (resolve N domain) as [ip|e]; [exact Hrest|].
    destruct e; try exact Hrest. now destruct Hdomain.
Qed.

Lemma check_dns_resolution_distinct
    (N : Network) (domains : list string) (log : Trace) :
  NoDup domains ->
  (forall d, In d domains -> resolve N d <> Raise KeyboardInterrupt) ->
  check_dns_resolution N domains log
  = (Ret (map (fun d => (d, dns_outcome (resolve N d))) domains),
     (log ++ map GetHostByName domains)%list).
Proof.
  intros Hdistinct Hanswer. unfold check_dns_resolution.
  rewrite (check_dns_loop_distinct N domains Hdistinct Hanswer [] log);
    [reflexivity|].
  intros d _ [].
Qed.

(** X15: for distinct domains whose lookups are not interrupted,
    [check_dns_resolution] looks each name up once, in order, and returns
    one entry for each domain, in the same order: a success with the
    address when the name resolves, a failure when it does not; a name
    that fails has no effect on the entries of the others. *)
Theorem X15_dns_results_follow_the_domains
    (N : Network) (domains : list string) (log : Trace) :
  NoDup domains ->
  (forall d, In d domains -> resolve N d <> Raise KeyboardInterrupt) ->
  check_dns_resolution N domains log
  = (Ret (map (fun d => (d, dns_outcome (resolve N d))) domains),
     (log ++ map GetHostByName domains)%list).
Proof. apply check_dns_resolution_distinct. Qed.

Lemma critical_domains_distinct : NoDup CRITICAL_DOMAINS.
Proof.
  unfold CRITICAL_DOMAINS.
  repeat (constructor; [cbn; intuition discriminate|]). constructor.
Qed.

Lemma X15_one_name_missing_witness :
  NoDup CRITICAL_DOMAINS
  /\ map (fun entry => (fst entry, fst (snd entry)))
       match fst (check_dns_resolution one_name_missing CRITICAL_DOMAINS []) with
       | Ret results => results
       | Raise _ => []
       end
     = [("map.openseamap.org", true); ("tiles.marinetraffic.com", false);
        ("data.aishub.net", true); ("aisstream.io", true)].
Proof.
  split; [exact critical_domains_distinct|].
  rewrite (X15_dns_results_follow_the_domains one_name_missing
             CRITICAL_DOMAINS [] critical_domains_distinct).
  - reflexivity.
  - intros d Hd. cbn.
    destruct (String.eqb d "tiles.marinetraffic.com"); discriminate.
Defined.

(** *** The recommendations *)

(** What a run that returns has gone through. *)
Lemma main_returns_inv (N : Network) (report : Report) (log : Trace) :
  main N [] = (Ret report, log) ->
  exists tiles web aishub stream r1 r2 r3 issues,
    let osm := [("main_page", r1); ("api_directory", r2);
                ("getAIS_endpoint", r3)] in
    report
    = mkReport (run_at N)
        [("marinetraffic_tiles", tiles); ("marinetraffic_web", web);
         ("aishub_api", aishub); ("aisstream", stream);
         ("github_issues", issues)]
        osm
        (generate_recommendations
           (mkTestResults tiles web aishub stream osm issues)).
Proof.
  intros Hmain. unfold main in Hmain.
  apply MonitorFacts.bind_ret_inv in Hmain as (dns & l1 & _ & Hmain).
  apply MonitorFacts.bind_ret_inv in Hmain as (tiles & l2 & _ & Hmain).
  apply MonitorFacts.bind_ret_inv in Hmain as (web & l3 & _ & Hmain).
  apply MonitorFacts.bind_ret_inv in Hmain as (aishub & l4 & _ & Hmain).
  apply MonitorFacts.bind_ret_inv in Hmain as (stream & l5 & _ & Hmain).
  apply MonitorFacts.bind_ret_inv in Hmain as (osm & l6 & Hosm & Hmain).
  apply MonitorFacts.bind_ret_inv in Hmain as (issues & l7 & _ & Hmain).
  cbv zeta in Hmain.
  apply MonitorFacts.bind_ret_inv in Hmain as (u & l8 & _ & Hmain).
  unfold ret in Hmain. injection Hmain as <- _.
  unfold test_openseamap_api_endpoints in Hosm.
  apply MonitorFacts.bind_ret_inv in Hosm as (r1 & m1 & _ & Hosm).
  apply MonitorFacts.bind_ret_inv in Hosm as (r2 & m2 & _ & Hosm).
  apply MonitorFacts.bind_ret_inv in Hosm as (r3 & m3 & _ & Hosm).
  unfold ret in Hosm. injection Hosm as <- _.
  now exists tiles, web, aishub, stream, r1, r2, r3, issues.
Qed.

Lemma server_message_iff (t : TestResults) :
  In REC_SERVER (generate_recommendations t) <-> openseamap_endpoints t = [].
Proof.
  unfold generate_recommendations, append_if.
  rewrite any_endpoint_nonempty.
  destruct (fst (marinetraffic_tiles t)), (fst (aishub_api t)),
    (fst (aisstream t)), (openseamap_endpoints t) as [|ep eps];
    cbn [negb app]; cbv zeta; rec_solve.
Qed.

(** X16: the "server issue" message is selected exactly when the
    dictionary of endpoint results is empty: the test looks at the result
    tuples, which are all truthy, not at their success flags.  As [main]
    always passes three endpoint results, no report of the Prober ever
    carries this message, even when no endpoint answers. *)
Theorem X16_server_message_needs_no_endpoints (t : TestResults) :
  (In REC_SERVER (generate_recommendations t) <-> openseamap_endpoints t = [])
  /\ (forall N report log,
        main N [] = (Ret report, log) ->
        map fst (report_endpoints report)
        = ["main_page"; "api_directory"; "getAIS_endpoint"]
        /\ ~ In REC_SERVER (report_recommendations report)).
Proof.
  split; [apply server_message_iff|].
  intros N report log Hmain.
  destruct (main_returns_inv N report log Hmain)
    as (tiles & web & aishub & stream & r1 & r2 & r3 & issues & ->).
  cbn [report_endpoints report_recommendations].
  split; [reflexivity|].
  rewrite server_message_iff. cbn. discriminate.
Qed.

Lemma X16_server_message_witness :
  exists report,
    main unreachable [] = (Ret report, BATTERY)
    /\ Forall (fun entry => fst (snd entry) = false) (report_endpoints report)
    /\ ~ In REC_SERVER (report_recommendations report).
Proof.
  eexists. split; [reflexivity|]. split.
  - repeat constructor.
  - apply (proj2 (X16_server_message_needs_no_endpoints endpoints_down)
             unreachable _ BATTERY eq_refl).
Defined.

(** X17: the function always returns between one and four
    recommendations, each of them one of the five messages and none
    twice. *)
Theorem X17_recommendations_are_few_and_distinct (t : TestResults) :
  let recs := generate_recommendations t in
  1 <= List.length recs <= 4
  /\ NoDup recs
  /\ incl recs ALL_RECS.
Proof.
  unfold generate_recommendations, append_if.
  destruct (fst (marinetraffic_tiles t)), (fst (aishub_api t)),
    (fst (aisstream t)), (any_endpoint (openseamap_endpoints t));
    cbn [negb app]; cbv zeta;
    (split; [split; cbn; lia|]);
    (split;
     [repeat (constructor; [cbn [In]; intuition discriminate|]); constructor
     | intros m Hm; unfold ALL_RECS; cbn [In] in Hm |- *; tauto]).
Qed.

(** *** The report *)

Ltac fixed_tac :=
  unfold subscript, try_except, bind, requests_get, answered, ret, raise,
    except_Exception_error;
  cbv beta iota;
  repeat (match goal with
          | |- context [match ?x with _ => _ end] =>
              lazymatch x with
              | context [match _ with _ => _ end] => fail
              | _ => destruct x
              end
          end; cbv beta iota);
  reflexivity.

(** The Probe Result of a probe does not depend on the calls issued
    before it. *)
Lemma tiles_value_fixed (N : Network) (x y zoom : Z) (log log' : Trace) :
  fst (test_marinetraffic_tiles N x y zoom log)
  = fst (test_marinetraffic_tiles N x y zoom log').
Proof. unfold test_marinetraffic_tiles. fixed_tac. Qed.

Lemma web_value_fixed (N : Network) (log log' : Trace) :
  fst (test_marinetraffic_api_simple N log)
  = fst (test_marinetraffic_api_simple N log').
Proof. unfold test_marinetraffic_api_simple. fixed_tac. Qed.

Lemma aishub_value_fixed (N : Network) (log log' : Trace) :
  fst (test_aishub_api N log) = fst (test_aishub_api N log').
Proof. unfold test_aishub_api. fixed_tac. Qed.

Lemma aisstream_value_fixed (N : Network) (log log' : Trace) :
  fst (test_aisstream_websocket N log) = fst (test_aisstream_websocket N log').
Proof. unfold test_aisstream_websocket. fixed_tac. Qed.

Lemma github_value_fixed (N : Network) (log log' : Trace) :
  fst (analyze_github_issues N log) = fst (analyze_github_issues N log').
Proof. unfold analyze_github_issues. fixed_tac. Qed.

Lemma endpoint_check_answer (N : Network) (url : string)
    (params : list (string * string)) (accepted : list Z) :
  exists answer,
    forall log,
      endpoint_check N url params accepted log
      = (answer, (log ++ [HttpGet url params [] (Some 10%Z)])%list).
Proof.
  unfold endpoint_check, try_except, bind, requests_get, ret,
    except_Exception_error.
  destruct (http N url) as [response|e]; [eexists; reflexivity|].
  destruct e; eexists; reflexivity.
Qed.

Lemma endpoints_value_fixed (N : Network) (log log' : Trace) :
  fst (test_openseamap_api_endpoints N log)
  = fst (test_openseamap_api_endpoints N log').
Proof.
  unfold test_openseamap_api_endpoints.
  destruct (endpoint_check_answer N BASE_URL [] [200%Z]) as (a1 & H1).
  destruct (endpoint_check_answer N (BASE_URL ++ "/api/") [] [200%Z; 403%Z])
    as (a2 & H2).
  destruct (endpoint_check_answer N (BASE_URL ++ "/api/getAIS.php")
              [("bbox", "0,0,1,1")] [200%Z; 400%Z]) as (a3 & H3).
  unfold bind. rewrite !H1.
  destruct a1 as [r1|e1]; [|reflexivity]. rewrite !H2.
  destruct a2 as [r2|e2]; [|reflexivity]. rewrite !H3.
  destruct a3 as [r3|e3]; reflexivity.
Qed.

(** The values that the probes returned in a run that returns. *)
Lemma main_returns_probes (N : Network) (report : Report) (log : Trace) :
  main N [] = (Ret report, log) ->
  exists tiles web aishub stream osm issues,
    fst (test_marinetraffic_tiles N 511 340 10 []) = Ret tiles
    /\ fst (test_marinetraffic_api_simple N []) = Ret web
    /\ fst (test_aishub_api N []) = Ret aishub
    /\ fst (test_aisstream_websocket N []) = Ret stream
    /\ fst (test_openseamap_api_endpoints N []) = Ret osm
    /\ fst (analyze_github_issues N []) = Ret issues
    /\ report
       = mkReport (run_at N)
           [("marinetraffic_tiles", tiles); ("marinetraffic_web", web);
            ("aishub_api", aishub); ("aisstream", stream);
            ("github_issues", issues)]
           osm
           (generate_recommendations
              (mkTestResults tiles web aishub stream osm issues)).
Proof.
  intros Hmain. unfold main in Hmain.
  apply MonitorFacts.bind_ret_inv in Hmain as (dns & l1 & _ & Hmain).
  apply MonitorFacts.bind_ret_inv in Hmain as (tiles & l2 & Htiles & Hmain).
  apply MonitorFacts.bind_ret_inv in Hmain as (web & l3 & Hweb & Hmain).
  apply MonitorFacts.bind_ret_inv in Hmain as (aishub & l4 & Haishub & Hmain).
  apply MonitorFacts.bind_ret_inv in Hmain as (stream & l5 & Hstream & Hmain).
  apply MonitorFacts.bind_ret_inv in Hmain as (osm & l6 & Hosm & Hmain).
  apply MonitorFacts.bind_ret_inv in Hmain as (issues & l7 & Hissues & Hmain).
  cbv zeta in Hmain.
  apply MonitorFacts.bind_ret_inv in Hmain as (u & l8 & _ & Hmain).
  unfold ret in Hmain. injection Hmain as <- _.
  exists tiles, web, aishub, stream, osm, issues.
  rewrite (tiles_value_fixed N 511 340 10 [] l1), Htiles.
  rewrite (web_value_fixed N [] l2), Hweb.
  rewrite (aishub_value_fixed N [] l3), Haishub.
  rewrite (aisstream_value_fixed N [] l4), Hstream.
  rewrite (endpoints_value_fixed N [] l5), Hosm.
  rewrite (github_value_fixed N [] l6), Hissues.
  repeat split.
Qed.

(** X21: the report of a run that returns holds, under fixed keys and in
    a fixed order, the Probe Results that the five single probes returned,
    and as endpoint results the three results that
    [test_openseamap_api_endpoints] returned; its recommendations are those
    that [generate_recommendations] derives from these very results; the
    results of the name lookups are printed only and are not part of the
    report. *)
Theorem X21_report_is_self_consistent
    (N : Network) (report : Report) (log : Trace) :
  main N [] = (Ret report, log) ->
  exists tiles web aishub stream issues,
    fst (test_marinetraffic_tiles N 511 340 10 []) = Ret tiles
    /\ fst (test_marinetraffic_api_simple N []) = Ret web
    /\ fst (test_aishub_api N []) = Ret aishub
    /\ fst (test_aisstream_websocket N []) = Ret stream
    /\ fst (analyze_github_issues N []) = Ret issues
    /\ fst (test_openseamap_api_endpoints N []) = Ret (report_endpoints report)
    /\ map fst (report_endpoints report)
       = ["main_page"; "api_directory"; "getAIS_endpoint"]
    /\ report_test_results report
       = [("marinetraffic_tiles", tiles); ("marinetraffic_web", web);
          ("aishub_api", aishub); ("aisstream", stream);
          ("github_issues", issues)]
    /\ report_recommendations report
       = generate_recommendations
           (mkTestResults tiles web aishub stream (report_endpoints report) issues)
    /\ report_timestamp report = run_at N
    /\ (forall domain,
          In domain CRITICAL_DOMAINS ->
          ~ In domain (map fst (report_test_results report ++ report_endpoints report))).
Proof.
  intros Hmain.
  destruct (main_returns_inv N report log Hmain)
    as (t0 & w0 & a0 & s0 & r1 & r2 & r3 & i0 & Hshape).
  destruct (main_returns_probes N report log Hmain)
    as (tiles & web & aishub & stream & osm & issues
        & Htiles & Hweb & Haishub & Hstream & Hosm & Hissues & ->).
  cbv zeta in Hshape. injection Hshape as -> -> -> -> -> ->.
  exists t0, w0, a0, s0, i0.
  cbn [report_test_results report_recommendations report_endpoints
       report_timestamp].
  repeat split; try assumption.
  intros domain Hdomain. cbn in Hdomain |- *.
  intuition (subst; discriminate).
Qed.

Lemma X21_report_witness :
  exists report,
    main unreachable [] = (Ret report, BATTERY)
    /\ report_test_results report
       = [("marinetraffic_tiles", (false, "Connection error: Max retries exceeded"));
          ("marinetraffic_web", (false, "Error: Max retries exceeded"));
          ("aishub_api", (false, "Error: Max retries exceeded"));
          ("aisstream", (false, "Error: Max retries exceeded"));
          ("github_issues", (false, "Error: Max retries exceeded"))].
Proof.
  eexists. split; [reflexivity|].
  destruct (X21_report_is_self_consistent unreachable _ BATTERY eq_refl)
    as (tiles & web & aishub & stream & issues
        & Ht & Hw & Ha & Hs & Hi & _ & _ & -> & _).
  vm_compute in Ht, Hw, Ha, Hs, Hi.
  injection Ht as <-. injection Hw as <-. injection Ha as <-.
  injection Hs as <-. injection Hi as <-. reflexivity.
Defined.

(** The messages of the two probes that read a JSON list count all its
    entries. *)
Example aishub_counts_every_entry :
  fst (test_aishub_api answers_with_list [])
  = Ret (true, "AISHub API responding with data (2 entries)").
Proof. reflexivity. Qed.

Example github_counts_every_matching_issue :
  fst (analyze_github_issues answers_with_list [])
  = Ret (true,
         "Found 2 AIS-related issues. Most recent: "
         ++ "'Marine Traffic (AIS) layer no longer working' (#192, open)").
Proof. reflexivity. Qed.

(** *** A run on a network that does not answer *)



(** *** Terminal output *)

Lemma repeat_char_length (c : ascii) (n : nat) :
  String.length (repeat_char c n) = n.
Proof. induction n as [|n IH]; cbn; [reflexivity | now rewrite IH]. Qed.

(** X19: the two output helpers pad and never cut: the status is flushed
    right in a column of six and a longer status is printed whole; a
    section title of at most seventy characters is set in a line of
    exactly seventy columns with as many spaces on its left as on its
    right, or one fewer. *)
Theorem X19_output_fields_pad_and_never_cut :
  (forall status message,
     exists color,
       print_status status message
       = color ++ repeat_char " " (6 - String.length status) ++ status
           ++ RESET ++ " | " ++ message
       /\ String.length (rjust 6 status) = Nat.max 6 (String.length status))
  /\ (forall section_title,
        String.length section_title <= 70 ->
        exists l r,
          nth_error (print_section section_title) 1
          = Some (BOLD ++ BLUE
                    ++ (repeat_char " " l ++ section_title ++ repeat_char " " r)
                    ++ RESET)
          /\ l + String.length section_title + r = 70
          /\ l <= r <= l + 1).
Proof.
  split.
  - intros status message. eexists. split.
    + unfold print_status, rjust.
      rewrite (append_assoc (repeat_char " " (6 - String.length status)) status).
      reflexivity.
    + unfold rjust. rewrite append_length, repeat_char_length. lia.
  - intros section_title Hlen.
    set (marg := 70 - String.length section_title).
    exists (marg / 2), (marg - marg / 2). split; [|split].
    + cbn [print_section nth_error]. unfold center. fold marg.
      cbn [Nat.odd andb]. replace (Nat.odd 70) with false by reflexivity.
      rewrite andb_false_r, Nat.add_0_r. reflexivity.
    + pose proof (Nat.div_mod_eq marg 2).
      pose proof (Nat.mod_upper_bound marg 2). subst marg. lia.
    + pose proof (Nat.div_mod_eq marg 2).
      pose proof (Nat.mod_upper_bound marg 2). lia.
Qed.

Lemma X19_output_witness :
  String.length "DNS Resolution Check" <= 70
  /\ exists l r,
       nth_error (print_section "DNS Resolution Check") 1
       = Some (BOLD ++ BLUE
                 ++ (repeat_char " " l ++ "DNS Resolution Check" ++ repeat_char " " r)
                 ++ RESET)
       /\ l + 20 + r = 70.
Proof.
  assert (String.length "DNS Resolution Check" <= 70) as H by (cbn; lia).
  split; [exact H|].
  destruct (proj2 X19_output_fields_pad_and_never_cut "DNS Resolution Check" H)
    as (l & r & Hline & Hsum & _).
  exists l, r. split; [exact Hline | exact Hsum].
Defined.

End ProberExtras.
